(** * TimeTracker: session lifecycle, capture scheduler and capture pipeline

    A shallow embedding of the [TimeTracker] React component
    (src/components/TimeTracker.tsx): the elapsed-time formatter, the
    permission probe, the start/stop handlers, the interval timers kept in
    [intervalRef] and the screenshot capture cycle.

    Conventions of the embedding.
    - A function component is re-run on every render; the handlers it
      defines close over the [const] bindings of that render.  A render is
      the record [Render]; every handler takes the render it was created in
      as its first argument, and [setX] calls write the state cell that the
      next render reads (record [World]).
    - [useRef] cells, the window's interval table, the database tables and the
      storage bucket are mutable and shared: they live in [World] and are
      read at call time.
    - Whatever the environment decides (whether an insert is accepted, what a
      permission prompt answers, what the clock reads) is an explicit
      argument of the handler.
    - Scheduling is single-threaded.  A handler, an effect or a timer
      callback is one state transformer; [handleStartTracking] is also given
      in two halves, before and after the awaited permission probe, so that
      re-renders and ticks can be placed between them.  Numbers are the
      integers they denote (clock readings in milliseconds). *)

From Stdlib Require Import ZArith String Ascii List Bool Lia.
From Stdlib Require Import DecimalString DecimalZ.
From stdpp Require Import gmap strings list.

Local Open Scope string_scope.
Local Open Scope Z_scope.

(** ** JavaScript primitives used by the component *)

Module Js.

(** [Number.prototype.toString] on an integral number (decimal digits, a
    leading minus sign for negatives). *)
Definition Number_toString (z : Z) : string :=
  NilZero.string_of_int (Z.to_int z).

(** [String(n).repeat]-free rendering of [s.padStart(2, '0')]: the string is
    returned unchanged when it already has two characters or more. *)
Definition padStart2 (s : string) : string :=
  match String.length s with
  | O => "00"
  | S O => "0" ++ s
  | _ => s
  end.

(** [Math.floor(a / b)] for integral [a] and positive [b]. *)
Definition floor_div (a b : Z) : Z := a / b.

(** The [%] operator: remainder with the sign of the dividend. *)
Definition rem (a b : Z) : Z := Z.rem a b.

(** Truthiness of a number held in a nullable cell: [null] and [0] are
    falsy. *)
Definition truthy_id (o : option nat) : option nat :=
  match o with
  | Some O => None
  | other => other
  end.

(** Reading back a decimal numeral, used to state what a printed component
    denotes. *)
Definition parse_decimal (s : string) : option Z :=
  option_map Z.of_int (NilZero.int_of_string s).

End Js.

(** ** Elapsed-time formatter (updateElapsedTime, lines 121-135) *)

(** The three components computed from [diff]. *)
Definition elapsed_hours (diff : Z) : Z := Js.floor_div diff 3600.
Definition elapsed_minutes (diff : Z) : Z := Js.floor_div (Js.rem diff 3600) 60.
Definition elapsed_seconds (diff : Z) : Z := Js.rem diff 60.

(** The template literal passed to [setElapsedTime]. *)
Definition format_elapsed (start now : Z) : string :=
  let diff := Js.floor_div (now - start) 1000 in
  let hours := elapsed_hours diff in
  let minutes := elapsed_minutes diff in
  let seconds := elapsed_seconds diff in
  Js.padStart2 (Js.Number_toString hours) ++ ":" ++
  Js.padStart2 (Js.Number_toString minutes) ++ ":" ++
  Js.padStart2 (Js.Number_toString seconds).

(** The specification's wording of the same string: the whole seconds
    between the two instants, split into hours, minutes and seconds, each
    written with at least two digits. *)
Definition two_digits (n : Z) : string :=
  if n <? 10 then "0" ++ Js.Number_toString n else Js.Number_toString n.

Definition hms_of_seconds (total : Z) : Z * Z * Z :=
  (total / 3600, (total mod 3600) / 60, total mod 60).

Definition spec_elapsed (start now : Z) : string :=
  let '(h, m, s) := hms_of_seconds ((now - start) / 1000) in
  two_digits h ++ ":" ++ two_digits m ++ ":" ++ two_digits s.

Local Close Scope string_scope.

(** ** Data model (interfaces Screenshot and TimeEntry, lines 9-26) *)

Inductive CaptureType := screen | webcam.

Definition CaptureType_name (k : CaptureType) : string :=
  match k with screen => "screen" | webcam => "webcam" end.

(** A row of [time_entries]; [te_end_time = None] is the SQL [null]. *)
Record TimeEntry := {
  te_id : string;
  te_start_time : string;
  te_end_time : option string;
  te_user_id : string
}.

(** The signed-in profile held by the store; only its [id] is read by the
    tracking logic. *)
Record Profile := { profile_id : string }.

(** One object pushed on [insertData]; the database adds [id] itself. *)
Record ScreenshotInsert := {
  time_entry_id : string;
  storage_path : string;
  type_ : CaptureType;
  taken_at : string
}.

#[global] Instance CaptureType_eq_dec : EqDecision CaptureType.
Proof. solve_decision. Defined.
#[global] Instance TimeEntry_eq_dec : EqDecision TimeEntry.
Proof. solve_decision. Defined.
#[global] Instance Profile_eq_dec : EqDecision Profile.
Proof. solve_decision. Defined.
#[global] Instance ScreenshotInsert_eq_dec : EqDecision ScreenshotInsert.
Proof. solve_decision. Defined.

(** ** Renders, timers and the mutable world *)

(** The bindings one run of the component function gives to its closures:
    [useStore] and the [useState] values of that render. *)
Record Render := {
  user : option Profile;
  currentTimeEntry : option TimeEntry;
  hasScreenPermission : bool;
  hasWebcamPermission : bool
}.

(** What an interval timer calls: a closure of some render. *)
Inductive Callback :=
| cb_updateElapsedTime (r : Render)
| cb_captureScreenshots (r : Render).

Record Timer := { callback : Callback; period_ms : Z }.

Definition is_capture_timer (t : Timer) : bool :=
  match callback t with
  | cb_captureScreenshots _ => true
  | cb_updateElapsedTime _ => false
  end.

(** Calls that leave the component: media devices, storage, database. *)
Inductive Call :=
| call_getDisplayMedia
| call_getUserMedia
| call_getScreenshot
| call_upload (path : string)
| call_insert_time_entry (uid : option string) (start_time : string)
| call_update_end_time (id end_time : string)
| call_select_open_entry (uid : string)
| call_insert_screenshots (rows : list ScreenshotInsert)
| call_fetch_screenshots.

Record World := {
  st_currentTimeEntry : option TimeEntry  (* state cell of [currentTimeEntry] *);
  st_error : option string  (* state cell of [error] *);
  st_elapsedTime : string  (* state cell of [elapsedTime] *);
  st_hasScreenPermission : bool  (* state cell of [hasScreenPermission] *);
  st_hasWebcamPermission : bool  (* state cell of [hasWebcamPermission] *);
  store_user : option Profile  (* [state.user] of the store *);
  intervalRef : option nat  (* [intervalRef.current] *);
  webcamRef : bool  (* whether [webcamRef.current] is set *);
  effect_dep : option TimeEntry  (* [currentTimeEntry] of the last committed render *);
  timers : gmap nat Timer  (* the window's active intervals *);
  next_timer : nat  (* the next interval id the window hands out *);
  time_entries : list TimeEntry  (* table [time_entries] *);
  screenshots : list ScreenshotInsert  (* table [screenshots] *);
  bucket : list string  (* object paths in bucket [screenshots] *);
  calls : list Call  (* outgoing calls, oldest first *)
}.

(** Field updates. *)
Definition with_st_currentTimeEntry (v : option TimeEntry) (w : World) : World :=
  {| st_currentTimeEntry := v; st_error := st_error w; st_elapsedTime :=
     st_elapsedTime w; st_hasScreenPermission := st_hasScreenPermission w;
     st_hasWebcamPermission := st_hasWebcamPermission w; store_user :=
     store_user w; intervalRef := intervalRef w; webcamRef := webcamRef w;
     effect_dep := effect_dep w; timers := timers w; next_timer :=
     next_timer w; time_entries := time_entries w; screenshots :=
     screenshots w; bucket := bucket w; calls := calls w |}.
Definition with_st_error (v : option string) (w : World) : World :=
  {| st_currentTimeEntry := st_currentTimeEntry w; st_error := v;
     st_elapsedTime := st_elapsedTime w; st_hasScreenPermission :=
     st_hasScreenPermission w; st_hasWebcamPermission :=
     st_hasWebcamPermission w; store_user := store_user w; intervalRef :=
     intervalRef w; webcamRef := webcamRef w; effect_dep := effect_dep w;
     timers := timers w; next_timer := next_timer w; time_entries :=
     time_entries w; screenshots := screenshots w; bucket := bucket w; calls
     := calls w |}.
Definition with_st_elapsedTime (v : string) (w : World) : World :=
  {| st_currentTimeEntry := st_currentTimeEntry w; st_error := st_error w;
     st_elapsedTime := v; st_hasScreenPermission := st_hasScreenPermission
     w; st_hasWebcamPermission := st_hasWebcamPermission w; store_user :=
     store_user w; intervalRef := intervalRef w; webcamRef := webcamRef w;
     effect_dep := effect_dep w; timers := timers w; next_timer :=
     next_timer w; time_entries := time_entries w; screenshots :=
     screenshots w; bucket := bucket w; calls := calls w |}.
Definition with_st_hasScreenPermission (v : bool) (w : World) : World :=
  {| st_currentTimeEntry := st_currentTimeEntry w; st_error := st_error w;
     st_elapsedTime := st_elapsedTime w; st_hasScreenPermission := v;
     st_hasWebcamPermission := st_hasWebcamPermission w; store_user :=
     store_user w; intervalRef := intervalRef w; webcamRef := webcamRef w;
     effect_dep := effect_dep w; timers := timers w; next_timer :=
     next_timer w; time_entries := time_entries w; screenshots :=
     screenshots w; bucket := bucket w; calls := calls w |}.
Definition with_st_hasWebcamPermission (v : bool) (w : World) : World :=
  {| st_currentTimeEntry := st_currentTimeEntry w; st_error := st_error w;
     st_elapsedTime := st_elapsedTime w; st_hasScreenPermission :=
     st_hasScreenPermission w; st_hasWebcamPermission := v; store_user :=
     store_user w; intervalRef := intervalRef w; webcamRef := webcamRef w;
     effect_dep := effect_dep w; timers := timers w; next_timer :=
     next_timer w; time_entries := time_entries w; screenshots :=
     screenshots w; bucket := bucket w; calls := calls w |}.
Definition with_store_user (v : option Profile) (w : World) : World :=
  {| st_currentTimeEntry := st_currentTimeEntry w; st_error := st_error w;
     st_elapsedTime := st_elapsedTime w; st_hasScreenPermission :=
     st_hasScreenPermission w; st_hasWebcamPermission :=
     st_hasWebcamPermission w; store_user := v; intervalRef := intervalRef
     w; webcamRef := webcamRef w; effect_dep := effect_dep w; timers :=
     timers w; next_timer := next_timer w; time_entries := time_entries w;
     screenshots := screenshots w; bucket := bucket w; calls := calls w |}.
Definition with_intervalRef (v : option nat) (w : World) : World :=
  {| st_currentTimeEntry := st_currentTimeEntry w; st_error := st_error w;
     st_elapsedTime := st_elapsedTime w; st_hasScreenPermission :=
     st_hasScreenPermission w; st_hasWebcamPermission :=
     st_hasWebcamPermission w; store_user := store_user w; intervalRef := v;
     webcamRef := webcamRef w; effect_dep := effect_dep w; timers := timers
     w; next_timer := next_timer w; time_entries := time_entries w;
     screenshots := screenshots w; bucket := bucket w; calls := calls w |}.
Definition with_webcamRef (v : bool) (w : World) : World :=
  {| st_currentTimeEntry := st_currentTimeEntry w; st_error := st_error w;
     st_elapsedTime := st_elapsedTime w; st_hasScreenPermission :=
     st_hasScreenPermission w; st_hasWebcamPermission :=
     st_hasWebcamPermission w; store_user := store_user w; intervalRef :=
     intervalRef w; webcamRef := v; effect_dep := effect_dep w; timers :=
     timers w; next_timer := next_timer w; time_entries := time_entries w;
     screenshots := screenshots w; bucket := bucket w; calls := calls w |}.
Definition with_effect_dep (v : option TimeEntry) (w : World) : World :=
  {| st_currentTimeEntry := st_currentTimeEntry w; st_error := st_error w;
     st_elapsedTime := st_elapsedTime w; st_hasScreenPermission :=
     st_hasScreenPermission w; st_hasWebcamPermission :=
     st_hasWebcamPermission w; store_user := store_user w; intervalRef :=
     intervalRef w; webcamRef := webcamRef w; effect_dep := v; timers :=
     timers w; next_timer := next_timer w; time_entries := time_entries w;
     screenshots := screenshots w; bucket := bucket w; calls := calls w |}.
Definition with_timers (v : gmap nat Timer) (w : World) : World :=
  {| st_currentTimeEntry := st_currentTimeEntry w; st_error := st_error w;
     st_elapsedTime := st_elapsedTime w; st_hasScreenPermission :=
     st_hasScreenPermission w; st_hasWebcamPermission :=
     st_hasWebcamPermission w; store_user := store_user w; intervalRef :=
     intervalRef w; webcamRef := webcamRef w; effect_dep := effect_dep w;
     timers := v; next_timer := next_timer w; time_entries := time_entries
     w; screenshots := screenshots w; bucket := bucket w; calls := calls w
     |}.
Definition with_next_timer (v : nat) (w : World) : World :=
  {| st_currentTimeEntry := st_currentTimeEntry w; st_error := st_error w;
     st_elapsedTime := st_elapsedTime w; st_hasScreenPermission :=
     st_hasScreenPermission w; st_hasWebcamPermission :=
     st_hasWebcamPermission w; store_user := store_user w; intervalRef :=
     intervalRef w; webcamRef := webcamRef w; effect_dep := effect_dep w;
     timers := timers w; next_timer := v; time_entries := time_entries w;
     screenshots := screenshots w; bucket := bucket w; calls := calls w |}.
Definition with_time_entries (v : list TimeEntry) (w : World) : World :=
  {| st_currentTimeEntry := st_currentTimeEntry w; st_error := st_error w;
     st_elapsedTime := st_elapsedTime w; st_hasScreenPermission :=
     st_hasScreenPermission w; st_hasWebcamPermission :=
     st_hasWebcamPermission w; store_user := store_user w; intervalRef :=
     intervalRef w; webcamRef := webcamRef w; effect_dep := effect_dep w;
     timers := timers w; next_timer := next_timer w; time_entries := v;
     screenshots := screenshots w; bucket := bucket w; calls := calls w |}.
Definition with_screenshots (v : list ScreenshotInsert) (w : World) : World :=
  {| st_currentTimeEntry := st_currentTimeEntry w; st_error := st_error w;
     st_elapsedTime := st_elapsedTime w; st_hasScreenPermission :=
     st_hasScreenPermission w; st_hasWebcamPermission :=
     st_hasWebcamPermission w; store_user := store_user w; intervalRef :=
     intervalRef w; webcamRef := webcamRef w; effect_dep := effect_dep w;
     timers := timers w; next_timer := next_timer w; time_entries :=
     time_entries w; screenshots := v; bucket := bucket w; calls := calls w
     |}.
Definition with_bucket (v : list string) (w : World) : World :=
  {| st_currentTimeEntry := st_currentTimeEntry w; st_error := st_error w;
     st_elapsedTime := st_elapsedTime w; st_hasScreenPermission :=
     st_hasScreenPermission w; st_hasWebcamPermission :=
     st_hasWebcamPermission w; store_user := store_user w; intervalRef :=
     intervalRef w; webcamRef := webcamRef w; effect_dep := effect_dep w;
     timers := timers w; next_timer := next_timer w; time_entries :=
     time_entries w; screenshots := screenshots w; bucket := v; calls :=
     calls w |}.
Definition with_calls (v : list Call) (w : World) : World :=
  {| st_currentTimeEntry := st_currentTimeEntry w; st_error := st_error w;
     st_elapsedTime := st_elapsedTime w; st_hasScreenPermission :=
     st_hasScreenPermission w; st_hasWebcamPermission :=
     st_hasWebcamPermission w; store_user := store_user w; intervalRef :=
     intervalRef w; webcamRef := webcamRef w; effect_dep := effect_dep w;
     timers := timers w; next_timer := next_timer w; time_entries :=
     time_entries w; screenshots := screenshots w; bucket := bucket w; calls
     := v |}.

(** ** State setters, logging and the current render *)

Definition setCurrentTimeEntry (e : option TimeEntry) : World -> World :=
  with_st_currentTimeEntry e.
Definition setError (msg : string) : World -> World :=
  with_st_error (Some msg).
Definition setElapsedTime (s : string) : World -> World :=
  with_st_elapsedTime s.
Definition setHasScreenPermission (b : bool) : World -> World :=
  with_st_hasScreenPermission b.
Definition setHasWebcamPermission (b : bool) : World -> World :=
  with_st_hasWebcamPermission b.

Definition log (c : Call) (w : World) : World :=
  with_calls (calls w ++ [c]) w.

(** The bindings the next run of the component function will see. *)
Definition render (w : World) : Render :=
  {| user := store_user w;
     currentTimeEntry := st_currentTimeEntry w;
     hasScreenPermission := st_hasScreenPermission w;
     hasWebcamPermission := st_hasWebcamPermission w |}.

(** ** Interval timers of the window *)

(** [window.setInterval(cb, period)]: a fresh handle, never reused. *)
Definition setInterval (cb : Callback) (period : Z) (w : World) : nat * World :=
  let id := next_timer w in
  (id, with_next_timer (S id)
         (with_timers (<[id := {| callback := cb; period_ms := period |}]> (timers w)) w)).

(** [clearInterval(id)]: forget the handle if it is active. *)
Definition clearInterval (id : nat) (w : World) : World :=
  with_timers (delete id (timers w)) w.

(** [if (intervalRef.current) clearInterval(intervalRef.current)] *)
Definition clear_interval_ref (w : World) : World :=
  match Js.truthy_id (intervalRef w) with
  | Some id => clearInterval id w
  | None => w
  end.

(** ** Permission probe (checkPermissions, lines 80-102) *)

(** [screen_granted] and [webcam_granted] say whether [getDisplayMedia] and
    [getUserMedia] resolve; a rejection is caught and stored as [false]. *)
Definition checkPermissions (screen_granted webcam_granted : bool) (w : World) : World :=
  let w := log call_getDisplayMedia w in
  let w := setHasScreenPermission screen_granted w in
  let w := log call_getUserMedia w in
  setHasWebcamPermission webcam_granted w.

(** ** Gallery refresh (fetchScreenshots, lines 137-187)

    Only what the tracking logic can observe of it is kept: the query is
    issued when a user is signed in, and a failure sets the error banner.
    The gallery list and the loading flag are not part of the model. *)
Definition fetchScreenshots (r : Render) (ok : bool) (w : World) : World :=
  match user r with
  | None => w
  | Some _ =>
      let w := log call_fetch_screenshots w in
      if ok then w else setError "Failed to load screenshots" w
  end.

(** ** Capture cycle (captureScreenshots, lines 237-309) *)

(** How an awaited service call ends: it resolves with a result, resolves
    with an [{ error }] object, or rejects. *)
Inductive Outcome := resolves | returns_error | rejects.

(** What the environment answers during one cycle. *)
Record CycleEnv := {
  timestamp : string;          (* [new Date().toISOString()] *)
  screen_stream : bool;        (* [getDisplayMedia] resolves *)
  screen_frame : bool;         (* [grabFrame] and the JPEG encoding complete *)
  screen_upload : Outcome;
  webcam_shot : option string; (* [getScreenshot()], [None] for [null] *)
  webcam_upload : Outcome;     (* consulted only if a webcam blob exists *)
  insert_outcome : Outcome;    (* the batch insert into [screenshots] *)
  fetch_ok : bool
}.

(** [`${user?.id}`]: an absent user prints as [undefined]. *)
Definition user_id_text (r : Render) : string :=
  match user r with
  | Some u => profile_id u
  | None => "undefined"
  end.

Definition screenPath (r : Render) (e : TimeEntry) (ts : string) : string :=
  (user_id_text r ++ "/" ++ te_id e ++ "/screen_" ++ ts ++ ".jpg")%string.

Definition webcamPath (r : Render) (e : TimeEntry) (ts : string) : string :=
  (user_id_text r ++ "/" ++ te_id e ++ "/webcam_" ++ ts ++ ".jpg")%string.

(** [supabase.storage.from('screenshots').upload(path, blob)] *)
Definition upload (path : string) (o : Outcome) (w : World) : World :=
  let w := log (call_upload path) w in
  match o with
  | resolves => with_bucket (bucket w ++ [path]) w
  | _ => w
  end.

(** Lines 244-276.  The value [upload] resolves with is dropped, so only a
    rejection reaches the [catch]. *)
Definition capture_screen (r : Render) (e : TimeEntry) (env : CycleEnv)
    (acc : World * list ScreenshotInsert) : World * list ScreenshotInsert :=
  let '(w, insertData) := acc in
  if hasScreenPermission r then
    let w := log call_getDisplayMedia w in
    if screen_stream env && screen_frame env then
      let path := screenPath r e (timestamp env) in
      let w := upload path (screen_upload env) w in
      match screen_upload env with
      | rejects => (setHasScreenPermission false w, insertData)
      | _ =>
          (w, insertData ++
                [{| time_entry_id := te_id e; storage_path := path;
                    type_ := screen; taken_at := timestamp env |}])
      end
    else (setHasScreenPermission false w, insertData)
  else (w, insertData).

(** Line 283 calls [base64ToBlob], an identifier the component neither
    defines nor imports: evaluating the call throws.  The result is the blob,
    [None] standing for the exception. *)
Definition base64ToBlob (webcamShot : string) : option string := None.

(** Lines 278-298.  Since [base64ToBlob] throws, a screenshot that is not
    [null] always ends in the [catch] of lines 294-297; lines 284-292 are
    kept as the source has them. *)
Definition capture_webcam (r : Render) (e : TimeEntry) (env : CycleEnv)
    (acc : World * list ScreenshotInsert) : World * list ScreenshotInsert :=
  let '(w, insertData) := acc in
  if hasWebcamPermission r && webcamRef w then
    let w := log call_getScreenshot w in
    match webcam_shot env with
    | None => (w, insertData)
    | Some webcamShot =>
        match base64ToBlob webcamShot with
        | Some webcamBlob =>
            let path := webcamPath r e (timestamp env) in
            let w := upload path (webcam_upload env) w in
            match webcam_upload env with
            | rejects => (setHasWebcamPermission false w, insertData)
            | _ =>
                (w, insertData ++
                      [{| time_entry_id := te_id e; storage_path := path;
                          type_ := webcam; taken_at := timestamp env |}])
            end
        | None => (setHasWebcamPermission false w, insertData)
        end
    end
  else (w, insertData).

(** The rows the cycle hands to the batch insert. *)
Definition cycle_batch (r : Render) (env : CycleEnv) (w : World) : list ScreenshotInsert :=
  match currentTimeEntry r with
  | None => []
  | Some e => snd (capture_webcam r e env (capture_screen r e env (w, [])))
  end.

Definition captureScreenshots (r : Render) (env : CycleEnv) (w : World) : World :=
  match currentTimeEntry r with
  | None => w
  | Some e =>
      let '(w, insertData) := capture_webcam r e env (capture_screen r e env (w, [])) in
      if (0 <? length insertData)%nat then
        let w := log (call_insert_screenshots insertData) w in
        match insert_outcome env with
        | resolves =>
            fetchScreenshots r (fetch_ok env)
              (with_screenshots (screenshots w ++ insertData) w)
        | returns_error => fetchScreenshots r (fetch_ok env) w
        | rejects => setError "Failed to capture screenshots" w
        end
      else w
  end.

(** ** Session lifecycle (handleStartTracking, handleStopTracking) *)

(** What the environment answers during [handleStartTracking]. *)
Record StartEnv := {
  start_now : string;          (* [new Date().toISOString()] *)
  insert_id : option string;   (* the id the database gives the new row, or
                                  [None] when the insert reports an error *)
  probe_screen : bool;
  probe_webcam : bool;
  first_cycle : CycleEnv
}.

(** Lines 191-202: the insert and, when it succeeded, [setCurrentTimeEntry];
    otherwise the [catch] of lines 212-215.  The column [user_id] is
    [NOT NULL] in the schema, so a row without a user is refused.  The
    boolean tells whether execution goes on to line 205. *)
Definition start_insert (r : Render) (env : StartEnv) (w : World) : World * bool :=
  let w := log (call_insert_time_entry (option_map profile_id (user r)) (start_now env)) w in
  match insert_id env, user r with
  | Some id, Some u =>
      let entry := {| te_id := id; te_start_time := start_now env;
                      te_end_time := None; te_user_id := profile_id u |} in
      let w := with_time_entries (time_entries w ++ [entry]) w in
      (setCurrentTimeEntry (Some entry) w, true)
  | _, _ => (setError "Failed to start tracking" w, false)
  end.

(** Lines 204-211, after [await checkPermissions()] has returned.  The
    condition reads the permission flags of the render the handler belongs
    to, and both the timer callback and the immediate call are
    [captureScreenshots] of that same render. *)
Definition start_arm (r : Render) (env : StartEnv) (w : World) : World :=
  let w := checkPermissions (probe_screen env) (probe_webcam env) w in
  if hasScreenPermission r || hasWebcamPermission r then
    let '(id, w) := setInterval (cb_captureScreenshots r) (5 * 60 * 1000) w in
    let w := with_intervalRef (Some id) w in
    captureScreenshots r (first_cycle env) w
  else w.

Definition handleStartTracking (r : Render) (env : StartEnv) (w : World) : World :=
  let '(w, inserted) := start_insert r env w in
  if inserted then start_arm r env w else w.

Record StopEnv := {
  stop_now : string;   (* [new Date().toISOString()] *)
  update_ok : bool     (* the update reports no error *)
}.

(** [update({ end_time }).eq('id', id)] on one row. *)
Definition close_entry (id now : string) (e : TimeEntry) : TimeEntry :=
  if String.eqb (te_id e) id then
    {| te_id := te_id e; te_start_time := te_start_time e;
       te_end_time := Some now; te_user_id := te_user_id e |}
  else e.

(** Lines 218-235. *)
Definition handleStopTracking (r : Render) (env : StopEnv) (w : World) : World :=
  match currentTimeEntry r with
  | None => w
  | Some e =>
      let w := log (call_update_end_time (te_id e) (stop_now env)) w in
      if update_ok env then
        let w := with_time_entries (map (close_entry (te_id e) (stop_now env)) (time_entries w)) w in
        let w := setCurrentTimeEntry None w in
        clear_interval_ref w
      else setError "Failed to stop tracking" w
  end.

(** ** Recovery on load (checkExistingTimeEntry, lines 48-78) *)

(** The answer of the [maybeSingle] query for an open entry of the user. *)
Inductive QueryOutcome :=
| query_error
| query_data (data : option TimeEntry).

Definition checkExistingTimeEntry (r : Render) (q : QueryOutcome)
    (screen_granted webcam_granted : bool) (w : World) : World :=
  match user r with
  | None => w
  | Some u =>
      let w := log (call_select_open_entry (profile_id u)) w in
      match q with
      | query_error => setError "Failed to check existing time entry" w
      | query_data None => w
      | query_data (Some data) =>
          checkPermissions screen_granted webcam_granted
            (setCurrentTimeEntry (Some data) w)
      end
  end.

Section Component.

(** [new Date(s).getTime()]: the instant a timestamp text denotes, in
    milliseconds, [None] standing for [NaN]. *)
Variable Date_getTime : string -> option Z.

(** Lines 121-135; [now] is [Date.now()]. *)
Definition updateElapsedTime (r : Render) (now : Z) (w : World) : World :=
  match currentTimeEntry r with
  | None => w
  | Some e =>
      match Date_getTime (te_start_time e) with
      | Some start => setElapsedTime (format_elapsed start now) w
      | None => setElapsedTime "NaN:NaN:NaN" w
      end
  end.

(** Body of the effect of lines 108-119 for render [r]. *)
Definition elapsed_effect (r : Render) (now : Z) (w : World) : World :=
  match currentTimeEntry r with
  | Some _ =>
      let w := updateElapsedTime r now w in
      let '(id, w) := setInterval (cb_updateElapsedTime r) 1000 w in
      with_intervalRef (Some id) w
  | None => clear_interval_ref w
  end.

(** One re-render followed by its passive effects.  The effects that
    depend on [currentTimeEntry] run only when it differs from the value of
    the last committed render: first the clean-up returned by the previous
    run (lines 116-118), then the bodies in source order. *)
Definition commit (now : Z) (fetched : bool) (w : World) : World :=
  let r := render w in
  let w := with_webcamRef (hasWebcamPermission r) w in
  if decide (effect_dep w = currentTimeEntry r) then w
  else
    let w := clear_interval_ref w in
    let w := fetchScreenshots r fetched w in
    let w := elapsed_effect r now w in
    with_effect_dep (currentTimeEntry r) w.

(** An interval fires: its callback runs. *)
Definition fire (id : nat) (now : Z) (cyc : CycleEnv) (w : World) : World :=
  match timers w !! id with
  | None => w
  | Some t =>
      match callback t with
      | cb_updateElapsedTime r => updateElapsedTime r now w
      | cb_captureScreenshots r => captureScreenshots r cyc w
      end
  end.

(** First render: the three effects run in source order, without any
    clean-up before them (lines 48-78, 104-106, 108-119). *)
Definition mount (q : QueryOutcome) (screen_granted webcam_granted : bool)
    (now : Z) (fetched : bool) (w : World) : World :=
  let r := render w in
  let w := checkExistingTimeEntry r q screen_granted webcam_granted w in
  let w := fetchScreenshots r fetched w in
  let w := elapsed_effect r now w in
  with_effect_dep (currentTimeEntry r) w.

(** What can happen while a handler is suspended or between two clicks. *)
Inductive Event :=
| ev_commit (now : Z) (fetched : bool)
| ev_tick (id : nat) (now : Z) (cyc : CycleEnv).

Definition step (w : World) (ev : Event) : World :=
  match ev with
  | ev_commit now fetched => commit now fetched w
  | ev_tick id now cyc => fire id now cyc w
  end.

Definition run (evs : list Event) (w : World) : World :=
  fold_left step evs w.

End Component.

(** The world right after the component is created: nothing is tracked,
    no interval is active, handles start at 1. *)
Definition initial_world (u : option Profile) (entries : list TimeEntry) : World :=
  {| st_currentTimeEntry := None; st_error := None; st_elapsedTime := "00:00:00";
     st_hasScreenPermission := false; st_hasWebcamPermission := false;
     store_user := u; intervalRef := None; webcamRef := false;
     effect_dep := None; timers := ∅; next_timer := 1;
     time_entries := entries; screenshots := []; bucket := []; calls := [] |}.

(** ** Notions used in the statements *)

(** The lifecycle state the component displays. *)
Inductive Lifecycle :=
| Idle
| Running (session : TimeEntry).

Definition lifecycle (w : World) : Lifecycle :=
  match st_currentTimeEntry w with
  | None => Idle
  | Some e => Running e
  end.

(** Everything the scheduler consists of. *)
Definition handles (w : World) : gmap nat Timer * option nat * nat :=
  (timers w, intervalRef w, next_timer w).

(** No active interval calls [captureScreenshots]. *)
Definition no_capture_timer (w : World) : Prop :=
  forall id t, timers w !! id = Some t -> is_capture_timer t = false.

(** Interval handles are positive numbers. *)
Definition handles_positive (w : World) : Prop :=
  timers w !! 0%nat = None /\ (1 <= next_timer w)%nat.

(** Any active capture interval is the one [intervalRef] points to. *)
Definition capture_timer_in_ref (w : World) : Prop :=
  forall id t,
    timers w !! id = Some t -> is_capture_timer t = true ->
    intervalRef w = Some id.

Definition scheduler_ok (w : World) : Prop :=
  handles_positive w /\ capture_timer_in_ref w.

(** The capture interval of render [r] with the period of line 209 is
    active under handle [id]. *)
Definition armed_for (r : Render) (id : nat) (w : World) : Prop :=
  timers w !! id = Some {| callback := cb_captureScreenshots r; period_ms := 300000 |}.

(** Open sessions of a user in the table. *)
Definition is_open_for (uid : string) (e : TimeEntry) : bool :=
  String.eqb (te_user_id e) uid &&
  match te_end_time e with None => true | Some _ => false end.

Definition open_count (uid : string) (db : list TimeEntry) : nat :=
  length (List.filter (is_open_for uid) db).

Definition at_most_one_open (db : list TimeEntry) : Prop :=
  forall uid, (open_count uid db <= 1)%nat.

(** The path and row the data model prescribes for a capture. *)
Definition capture_path (uid sid : string) (k : CaptureType) (iso : string) : string :=
  (uid ++ "/" ++ sid ++ "/" ++ CaptureType_name k ++ "_" ++ iso ++ ".jpg")%string.

Definition capture_row (uid sid : string) (k : CaptureType) (iso : string) : ScreenshotInsert :=
  {| time_entry_id := sid; storage_path := capture_path uid sid k iso;
     type_ := k; taken_at := iso |}.

(** ** Concrete runs

    One user, one clock reading and the environments used by the examples
    further down. *)
Module Sample.

Definition alice : Profile := {| profile_id := "u1" |}.

Definition t0 : Z := 1704067200000.
Definition t0_iso : string := "2024-01-01T00:00:00.000Z".
Definition t1_iso : string := "2024-01-01T00:05:10.000Z".

Definition Date_getTime (s : string) : option Z :=
  if String.eqb s t0_iso then Some t0 else None.

(** A cycle in which the environment refuses nothing: the screen is
    shared, the webcam delivers a frame, storage and database accept. *)
Definition cycle_ok : CycleEnv :=
  {| timestamp := t0_iso; screen_stream := true; screen_frame := true;
     screen_upload := resolves; webcam_shot := Some "data:image/jpeg;base64,";
     webcam_upload := resolves;
     insert_outcome := resolves; fetch_ok := true |}.


Definition start_env (id : option string) (screen_granted webcam_granted : bool) : StartEnv :=
  {| start_now := t0_iso; insert_id := id; probe_screen := screen_granted;
     probe_webcam := webcam_granted; first_cycle := cycle_ok |}.

Definition stop_env (ok : bool) : StopEnv :=
  {| stop_now := t1_iso; update_ok := ok |}.

Definition session (id : string) : TimeEntry :=
  {| te_id := id; te_start_time := t0_iso; te_end_time := None;
     te_user_id := "u1" |}.

(** The page has just loaded for [alice]; she has no open session. *)
Definition loaded : World :=
  mount Date_getTime (query_data None) false false t0 true
    (initial_world (Some alice) []).

(** A first session in which both prompts were accepted, started and
    stopped, with the re-renders in between. *)
Definition first_session_running : World :=
  commit Date_getTime t0 true
    (handleStartTracking (render loaded) (start_env (Some "s1") true true) loaded).

Definition after_first_session : World :=
  commit Date_getTime (t0 + 310000) true
    (handleStopTracking (render first_session_running) (stop_env true)
       first_session_running).

(** The page loaded while an open session of [alice] existed, and the
    query of the first effect failed. *)
Definition loaded_query_failed : World :=
  mount Date_getTime query_error false false t0 true
    (initial_world (Some alice) [session "s0"]).

(** An open session was found on load, both prompts were accepted, and the
    component has re-rendered. *)
Definition recovered : World :=
  commit Date_getTime t0 true
    (mount Date_getTime (query_data (Some (session "s0"))) true true t0 true
       (initial_world (Some alice) [session "s0"])).

(** First start after load; the insert succeeds and both prompts are
    accepted. *)
Definition first_start : World :=
  handleStartTracking (render loaded) (start_env (Some "s1") true true) loaded.

(** Second start in the same page; this time both prompts are refused. *)
Definition second_start_refused : World :=
  handleStartTracking (render after_first_session)
    (start_env (Some "s2") false false) after_first_session.

(** Second start with both prompts accepted: the component re-renders
    while the probe is awaited, then the interval is armed, the display is
    updated twice and the capture interval fires once. *)
Definition while_probing : list Event := [ev_commit t0 true].

Definition while_running : list Event :=
  [ev_tick 2 (t0 + 1000) cycle_ok;
   ev_tick 3 (t0 + 300000) cycle_ok;
   ev_tick 2 (t0 + 301000) cycle_ok].

Definition second_session_running : World :=
  run Date_getTime while_running
    (start_arm (render after_first_session) (start_env (Some "s2") true true)
       (run Date_getTime while_probing
          (fst (start_insert (render after_first_session)
                  (start_env (Some "s2") true true) after_first_session)))).


(** A start on the page whose load query failed. *)
Definition unguarded_start : World :=
  handleStartTracking (render loaded_query_failed)
    (start_env (Some "s1") false false) loaded_query_failed.

(** Second session in which Stop is clicked while the permission prompt of
    the start is still open: the insert, a re-render, the stop, a re-render,
    and only then the second half of the start. *)
Definition second_session_inserted : World :=
  commit Date_getTime (t0 + 320000) true
    (fst (start_insert (render after_first_session)
            (start_env (Some "s2") true true) after_first_session)).

Definition stopped_while_probing : World :=
  start_arm (render after_first_session) (start_env (Some "s2") true true)
    (commit Date_getTime (t0 + 330000) true
       (handleStopTracking (render second_session_inserted) (stop_env true)
          second_session_inserted)).

(** Second session in which Start is clicked twice before the component
    re-renders, so that both handlers belong to the same render; then the
    re-render, a stop and the re-render after it. *)
Definition started_twice : World :=
  commit Date_getTime (t0 + 320000) true
    (handleStartTracking (render after_first_session)
       (start_env (Some "s3") true true)
       (handleStartTracking (render after_first_session)
          (start_env (Some "s2") true true) after_first_session)).

Definition started_twice_stopped : World :=
  commit Date_getTime (t0 + 330000) true
    (handleStopTracking (render started_twice) (stop_env true) started_twice).

End Sample.

(** ** The two buttons (lines 357-373) and whole runs of the component *)

(** The Start button is rendered by a render without current entry and the
    Stop button by the others, so each click handler only ever belongs to a
    render of the matching kind. *)
Inductive Button := StartButton | StopButton.

Definition button (r : Render) : Button :=
  match currentTimeEntry r with
  | None => StartButton
  | Some _ => StopButton
  end.

(** What can happen to a mounted component.  A click on Start is given in
    its two halves, so that anything may happen while the probe is awaited;
    [handleStartTracking] is the first half followed at once by the
    second. *)
Inductive Action :=
| act_start_insert (r : Render) (env : StartEnv)
| act_start_arm (r : Render) (env : StartEnv)
| act_stop (r : Render) (env : StopEnv)
| act_event (ev : Event).

Definition perform (D : string -> option Z) (w : World) (a : Action) : World :=
  match a with
  | act_start_insert r env =>
      match button r with
      | StartButton => fst (start_insert r env w)
      | StopButton => w
      end
  | act_start_arm r env =>
      match button r with
      | StartButton => start_arm r env w
      | StopButton => w
      end
  | act_stop r env =>
      match button r with
      | StopButton => handleStopTracking r env w
      | StartButton => w
      end
  | act_event ev => step D w ev
  end.

Definition perform_all (D : string -> option Z) (acts : list Action) (w : World) : World :=
  fold_left (perform D) acts w.

(** Every active capture interval calls [captureScreenshots] of a render
    without current entry. *)
Definition capture_timers_idle (w : World) : Prop :=
  forall id t r,
    timers w !! id = Some t -> callback t = cb_captureScreenshots r ->
    currentTimeEntry r = None.


(** The webcam delivers a frame, whose conversion to a blob throws. *)
Definition cycle_webcam_blob_throws : CycleEnv :=
  {| timestamp := "2024-01-01T00:05:00.000Z"; screen_stream := true;
     screen_frame := true; screen_upload := resolves;
     webcam_shot := Some "data:image/jpeg;base64,";
     webcam_upload := resolves; insert_outcome := resolves; fetch_ok := true |}.

(** The screen prompt is dismissed. *)
Definition cycle_screen_prompt_dismissed : CycleEnv :=
  {| timestamp := "2024-01-01T00:05:00.000Z"; screen_stream := false;
     screen_frame := false; screen_upload := resolves;
     webcam_shot := Some "data:image/jpeg;base64,";
     webcam_upload := resolves; insert_outcome := resolves; fetch_ok := true |}.

(** The webcam has no frame yet: [getScreenshot()] returns [null]. *)
Definition cycle_webcam_not_ready : CycleEnv :=
  {| timestamp := "2024-01-01T00:05:00.000Z"; screen_stream := true;
     screen_frame := true; screen_upload := resolves;
     webcam_shot := None;
     webcam_upload := resolves; insert_outcome := resolves; fetch_ok := true |}.

(** Two sessions driven through the buttons, with both prompts accepted
    each time, and the ticks of every interval in between. *)
Definition two_sessions : list Action :=
  [act_start_insert (render Sample.loaded) (Sample.start_env (Some "s1") true true);
   act_event (ev_commit Sample.t0 true);
   act_start_arm (render Sample.loaded) (Sample.start_env (Some "s1") true true);
   act_event (ev_tick 1 (Sample.t0 + 300000) Sample.cycle_ok);
   act_stop (render Sample.first_session_running) (Sample.stop_env true);
   act_event (ev_commit (Sample.t0 + 310000) true);
   act_start_insert (render Sample.after_first_session)
     (Sample.start_env (Some "s2") true true);
   act_event (ev_commit (Sample.t0 + 320000) true);
   act_start_arm (render Sample.after_first_session)
     (Sample.start_env (Some "s2") true true);
   act_event (ev_tick 3 (Sample.t0 + 620000) Sample.cycle_ok);
   act_event (ev_tick 2 (Sample.t0 + 620000) Sample.cycle_ok)].

(** ** Dashboard (src/components/Dashboard.tsx, lines 41-50) *)

(** The template literal of line 49 for a duration in milliseconds. *)
Definition hours_minutes (duration : Z) : string :=
  let hours := Js.floor_div duration (1000 * 60 * 60) in
  let minutes := Js.floor_div (Js.rem duration (1000 * 60 * 60)) (1000 * 60) in
  (Js.padStart2 (Js.Number_toString hours) ++ ":" ++
   Js.padStart2 (Js.Number_toString minutes))%string.

(** [calculateDuration(start, end)]; [now] is [Date.now()], read when [end]
    is [null] or empty.  A timestamp that does not parse makes every field
    [NaN]. *)
Definition calculateDuration (Date_getTime : string -> option Z)
    (start : string) (end_ : option string) (now : Z) : string :=
  let startTime := Date_getTime start in
  let endTime :=
    match end_ with
    | Some s => if String.eqb s "" then Some now else Date_getTime s
    | None => Some now
    end in
  match startTime, endTime with
  | Some s, Some e => hours_minutes (e - s)
  | _, _ => "NaN:NaN"
  end.

(** ** Store (src/lib/store.ts, lines 26-54) *)

(** The part of the store the two tracking actions read and write. *)
Record StoreState := {
  store_state_user : option Profile;
  store_currentTimeEntry : option TimeEntry
}.

(** How the promise of an action settles, with the store and the table
    afterwards. *)
Record Settled := {
  rejected : bool;
  store_after : StoreState;
  table_after : list TimeEntry
}.

(** [startTracking]: [new_id] is the id the database gives the row, or
    [None] when the insert reports an error; the error is thrown. *)
Definition startTracking (now : string) (new_id : option string)
    (st : StoreState) (db : list TimeEntry) : Settled :=
  match new_id, store_state_user st with
  | Some id, Some u =>
      let entry := {| te_id := id; te_start_time := now; te_end_time := None;
                      te_user_id := profile_id u |} in
      {| rejected := false;
         store_after := {| store_state_user := store_state_user st;
                           store_currentTimeEntry := Some entry |};
         table_after := db ++ [entry] |}
  | _, _ => {| rejected := true; store_after := st; table_after := db |}
  end.

(** [stopTracking]: the current entry is read from the store when the
    action runs. *)
Definition stopTracking (now : string) (ok : bool)
    (st : StoreState) (db : list TimeEntry) : Settled :=
  match store_currentTimeEntry st with
  | None => {| rejected := false; store_after := st; table_after := db |}
  | Some currentEntry =>
      if ok then
        {| rejected := false;
           store_after := {| store_state_user := store_state_user st;
                             store_currentTimeEntry := None |};
           table_after := map (close_entry (te_id currentEntry) now) db |}
      else {| rejected := true; store_after := st; table_after := db |}
  end.

(** ** Admin panel (src/components/AdminPanel.tsx, lines 23-123) *)

Record ProfileRow := {
  pr_id : string;
  pr_full_name : string;
  pr_role : string;
  pr_manager_id : option string;
  pr_email : string
}.

(** The columns selected from [time_entries] and [screenshots]. *)
Record EntryRef := { er_id : string; er_user_id : string }.
Record ShotRef := { sr_id : string; sr_time_entry_id : string }.

Record AdminUser := {
  au_id : string;
  au_full_name : string;
  au_role : string;
  au_manager_id : option string;
  au_email : string;
  time_entries_count : nat;
  screenshots_count : nat
}.

(** Lines 50-54. *)
Definition userTimeEntries (uid : string) (timeEntries : list EntryRef) : list EntryRef :=
  List.filter (fun entry => String.eqb (er_user_id entry) uid) timeEntries.

Definition userScreenshots (uid : string) (timeEntries : list EntryRef)
    (shots : list ShotRef) : list ShotRef :=
  List.filter
    (fun screenshot =>
       match List.find (fun entry => String.eqb (er_id entry) (sr_time_entry_id screenshot))
               timeEntries with
       | Some timeEntry => String.eqb (er_user_id timeEntry) uid
       | None => false
       end)
    shots.

(** Lines 49-61. *)
Definition processedUsers (profiles : list ProfileRow)
    (timeEntries : list EntryRef) (shots : list ShotRef) : list AdminUser :=
  map (fun user =>
         {| au_id := pr_id user; au_full_name := pr_full_name user;
            au_role := pr_role user; au_manager_id := pr_manager_id user;
            au_email := pr_email user;
            time_entries_count := length (userTimeEntries (pr_id user) timeEntries);
            screenshots_count :=
              length (userScreenshots (pr_id user) timeEntries shots) |})
      profiles.

Definition is_manager_role (role : string) : bool :=
  String.eqb role "manager" || String.eqb role "admin".

(** Lines 63-65. *)
Definition managersData (users : list AdminUser) : list AdminUser :=
  List.filter (fun user => is_manager_role (au_role user)) users.

Record AdminState := {
  adm_users : list AdminUser;
  adm_managers : list AdminUser;
  adm_error : option string
}.

(** [fetchUsers] (lines 24-75); each argument is the rows of one query,
    [None] when that query reports an error. *)
Definition fetchUsers (profiles : option (list ProfileRow))
    (timeEntries : option (list EntryRef)) (shots : option (list ShotRef))
    (s : AdminState) : AdminState :=
  match profiles, timeEntries, shots with
  | Some ps, Some es, Some ss =>
      let processed := processedUsers ps es ss in
      {| adm_users := processed; adm_managers := managersData processed;
         adm_error := adm_error s |}
  | _, _, _ =>
      {| adm_users := adm_users s; adm_managers := adm_managers s;
         adm_error := Some "Failed to load users. Please try again later." |}
  end.

Definition with_role (newRole : string) (u : AdminUser) : AdminUser :=
  {| au_id := au_id u; au_full_name := au_full_name u; au_role := newRole;
     au_manager_id := au_manager_id u; au_email := au_email u;
     time_entries_count := time_entries_count u;
     screenshots_count := screenshots_count u |}.

Definition with_manager (m : option string) (u : AdminUser) : AdminUser :=
  {| au_id := au_id u; au_full_name := au_full_name u; au_role := au_role u;
     au_manager_id := m; au_email := au_email u;
     time_entries_count := time_entries_count u;
     screenshots_count := screenshots_count u |}.

(** The lists one render of the panel binds to [users] and [managers]. *)
Record AdminRender := {
  users : list AdminUser;
  managers : list AdminUser
}.

Definition admin_render (s : AdminState) : AdminRender :=
  {| users := adm_users s; managers := adm_managers s |}.

(** [handleRoleChange] (lines 80-105) of render [r], resumed on state [s]
    once the update has answered; [ok] says whether it reported no error.
    The new lists are computed from the lists of the handler's render; where
    no [setManagers] is called the cell keeps the value of [s]. *)
Definition handleRoleChange (r : AdminRender) (userId newRole : string)
    (ok : bool) (s : AdminState) : AdminState :=
  if ok then
    {| adm_users :=
         map (fun user => if String.eqb (au_id user) userId
                          then with_role newRole user else user) (users r);
       adm_managers :=
         if is_manager_role newRole then
           match List.find (fun u => String.eqb (au_id u) userId) (users r) with
           | Some updatedUser =>
               match List.find (fun m => String.eqb (au_id m) userId) (managers r) with
               | None => managers r ++ [with_role newRole updatedUser]
               | Some _ => adm_managers s
               end
           | None => adm_managers s
           end
         else List.filter (fun m => negb (String.eqb (au_id m) userId)) (managers r);
       adm_error := adm_error s |}
  else
    {| adm_users := adm_users s; adm_managers := adm_managers s;
       adm_error := Some "Failed to update user role. Please try again." |}.

(** [handleManagerChange] (lines 107-123) of render [r], resumed on state
    [s]; only [setUsers] is called. *)
Definition handleManagerChange (r : AdminRender) (userId newManagerId : string)
    (ok : bool) (s : AdminState) : AdminState :=
  if ok then
    {| adm_users :=
         map (fun user =>
                if String.eqb (au_id user) userId
                then with_manager (if String.eqb newManagerId "none" then None
                                   else Some newManagerId) user
                else user) (users r);
       adm_managers := adm_managers s;
       adm_error := adm_error s |}
  else
    {| adm_users := adm_users s; adm_managers := adm_managers s;
       adm_error := Some "Failed to update manager. Please try again." |}.

(** The manager list names exactly the users whose role is manager or
    admin. *)
Definition managers_match (s : AdminState) : Prop :=
  forall x, In x (map au_id (adm_managers s)) <->
            exists u, In u (adm_users s) /\ au_id u = x /\
                      is_manager_role (au_role u) = true.

(** Three profiles, two sessions of the first and one screenshot. *)
Definition sample_profiles : list ProfileRow :=
  [ {| pr_id := "u1"; pr_full_name := "Alice"; pr_role := "employee";
       pr_manager_id := Some "u2"; pr_email := "alice@example.org" |};
    {| pr_id := "u2"; pr_full_name := "Bob"; pr_role := "manager";
       pr_manager_id := None; pr_email := "bob@example.org" |};
    {| pr_id := "u3"; pr_full_name := "Carol"; pr_role := "admin";
       pr_manager_id := None; pr_email := "carol@example.org" |} ].

Definition sample_entries : list EntryRef :=
  [ {| er_id := "s0"; er_user_id := "u1" |};
    {| er_id := "s1"; er_user_id := "u1" |};
    {| er_id := "s9"; er_user_id := "gone" |} ].

Definition sample_shots : list ShotRef :=
  [ {| sr_id := "c1"; sr_time_entry_id := "s0" |};
    {| sr_id := "c2"; sr_time_entry_id := "missing" |} ].

Definition sample_admin : AdminState :=
  fetchUsers (Some sample_profiles) (Some sample_entries) (Some sample_shots)
    {| adm_users := []; adm_managers := []; adm_error := None |}.

(** Alice is made a manager, and before the panel re-renders her manager is
    changed: both handlers belong to the render of [sample_admin]. *)
Definition sample_admin_overlapping : AdminState :=
  handleManagerChange (admin_render sample_admin) "u1" "u3" true
    (handleRoleChange (admin_render sample_admin) "u1" "manager" true
       sample_admin).

(** * Properties *)

(** ** Elapsed-time formatter *)

Section Formatter.

Local Open Scope string_scope.

Lemma to_uint_pos_nonnil (p : positive) : Pos.to_uint p <> Decimal.Nil.
Proof.
  intros H. pose proof (DecimalPos.Unsigned.of_to p) as E.
  rewrite H in E. discriminate E.
Qed.

(** A printed integer reads back as itself. *)
Lemma parse_Number_toString (z : Z) :
  Js.parse_decimal (Js.Number_toString z) = Some z.
Proof.
  unfold Js.parse_decimal, Js.Number_toString.
  destruct z as [|p|p].
  - reflexivity.
  - rewrite NilZero.isi.
    + simpl. f_equal. apply (DecimalZ.of_to (Z.pos p)).
    + simpl. intros [= H]. exact (to_uint_pos_nonnil p H).
    + discriminate.
  - rewrite NilZero.isi.
    + simpl. f_equal. apply (DecimalZ.of_to (Z.neg p)).
    + discriminate.
    + simpl. intros [= H]. exact (to_uint_pos_nonnil p H).
Qed.

(** The ten one-digit numbers, checked one by one: each prints as a single
    character, so [padStart] prefixes one zero, and the padded text reads
    back as the number. *)
Lemma one_digit (n : Z) :
  0 <= n < 10 ->
  Js.padStart2 (Js.Number_toString n) = "0" ++ Js.Number_toString n /\
  String.length ("0" ++ Js.Number_toString n) = 2%nat /\
  Js.parse_decimal ("0" ++ Js.Number_toString n) = Some n.
Proof.
  intros Hn.
  assert (Forall (fun d : nat =>
            Js.padStart2 (Js.Number_toString (Z.of_nat d))
            = "0" ++ Js.Number_toString (Z.of_nat d) /\
            String.length ("0" ++ Js.Number_toString (Z.of_nat d)) = 2%nat /\
            Js.parse_decimal ("0" ++ Js.Number_toString (Z.of_nat d))
            = Some (Z.of_nat d)) (seq 0 10)) as Hall
    by (repeat constructor).
  rewrite Forall_forall in Hall.
  specialize (Hall (Z.to_nat n)). rewrite Z2Nat.id in Hall by lia.
  apply Hall, elem_of_seq. lia.
Qed.

(** A numeral of at most one character denotes less than ten. *)
Lemma short_numeral_small (s : string) (z : Z) :
  Js.parse_decimal s = Some z -> (String.length s < 2)%nat -> z < 10.
Proof.
  unfold Js.parse_decimal. intros H Hlen.
  destruct s as [|c [|c' s']]; simpl in Hlen; [discriminate H | | lia].
  destruct c as [[|] [|] [|] [|] [|] [|] [|] [|]];
    vm_compute in H; try discriminate H; injection H as <-; lia.
Qed.

Lemma padStart2_two_digits (n : Z) :
  0 <= n -> Js.padStart2 (Js.Number_toString n) = two_digits n.
Proof.
  intros Hn. unfold two_digits.
  destruct (Z.ltb_spec n 10) as [Hlt|Hge].
  - apply one_digit. lia.
  - pose proof (parse_Number_toString n) as Hp.
    pose proof (short_numeral_small _ _ Hp) as Hs.
    unfold Js.padStart2.
    destruct (String.length (Js.Number_toString n)) as [|[|k]] eqn:E;
      [exfalso; lia | exfalso; lia | reflexivity].
Qed.

Lemma two_digits_length (n : Z) :
  0 <= n -> (2 <= String.length (two_digits n))%nat.
Proof.
  intros Hn. unfold two_digits.
  destruct (Z.ltb_spec n 10) as [Hlt|Hge].
  - destruct (one_digit n) as (_ & -> & _); lia.
  - pose proof (parse_Number_toString n) as Hp.
    pose proof (short_numeral_small _ _ Hp) as Hs. lia.
Qed.

Lemma two_digits_value (n : Z) :
  0 <= n -> Js.parse_decimal (two_digits n) = Some n.
Proof.
  intros Hn. unfold two_digits.
  destruct (Z.ltb_spec n 10) as [Hlt|Hge].
  - apply one_digit. lia.
  - apply parse_Number_toString.
Qed.

(** On a non-negative difference the code's components are the
    quotient-and-remainder split of the whole seconds. *)
Lemma components_split (diff : Z) :
  0 <= diff ->
  (elapsed_hours diff, elapsed_minutes diff, elapsed_seconds diff)
  = hms_of_seconds diff.
Proof.
  intros H. unfold elapsed_hours, elapsed_minutes, elapsed_seconds,
    hms_of_seconds, Js.floor_div, Js.rem.
  rewrite !Z.rem_mod_nonneg by lia. reflexivity.
Qed.

Lemma hms_of_seconds_sound (total : Z) :
  0 <= total ->
  let '(h, m, s) := hms_of_seconds total in
  h * 3600 + m * 60 + s = total /\ 0 <= h /\ 0 <= m < 60 /\ 0 <= s < 60.
Proof.
  intros H. unfold hms_of_seconds.
  pose proof (Z.div_mod total 3600 ltac:(lia)).
  pose proof (Z.mod_pos_bound total 3600 ltac:(lia)).
  pose proof (Z.div_mod (total mod 3600) 60 ltac:(lia)).
  pose proof (Z.mod_pos_bound (total mod 3600) 60 ltac:(lia)).
  pose proof (Z.mod_pos_bound total 60 ltac:(lia)).
  assert (total mod 60 = (total mod 3600) mod 60) as E.
  { rewrite (Z.div_mod total 3600) at 1 by lia.
    replace (3600 * (total / 3600) + total mod 3600)
      with (total mod 3600 + (60 * (total / 3600)) * 60) by lia.
    apply Z.mod_add. lia. }
  assert (0 <= total / 3600) by (apply Z.div_pos; lia).
  assert (0 <= total mod 3600 / 60 < 60).
  { split; [apply Z.div_pos; lia | apply Z.div_lt_upper_bound; lia]. }
  lia.
Qed.

Lemma format_elapsed_spec (start now : Z) :
  start <= now -> format_elapsed start now = spec_elapsed start now.
Proof.
  intros H. unfold format_elapsed, spec_elapsed.
  assert (0 <= Js.floor_div (now - start) 1000) as Hd
    by (apply Z.div_pos; lia).
  pose proof (components_split _ Hd) as Hc.
  pose proof (hms_of_seconds_sound _ Hd) as Hs.
  unfold Js.floor_div in *.
  destruct (hms_of_seconds ((now - start) / 1000)) as [[h m] s].
  injection Hc as -> -> ->.
  cbv zeta. rewrite !padStart2_two_digits by lia. reflexivity.
Qed.

End Formatter.

(** ** Frame lemmas: what the pieces leave alone *)

(** The capture pipeline only writes the two permission cells, the error
    cell, the bucket, the [screenshots] table and the call log; any
    observation [f] of the world that ignores those is unchanged by it. *)
Section PipelineFrame.

Context {A : Type} (f : World -> A).
Hypothesis f_calls : forall v w, f (with_calls v w) = f w.
Hypothesis f_error : forall v w, f (with_st_error v w) = f w.
Hypothesis f_screen : forall v w, f (with_st_hasScreenPermission v w) = f w.
Hypothesis f_webcam : forall v w, f (with_st_hasWebcamPermission v w) = f w.
Hypothesis f_bucket : forall v w, f (with_bucket v w) = f w.
Hypothesis f_rows : forall v w, f (with_screenshots v w) = f w.

Lemma frame_log c w : f (log c w) = f w.
Proof. apply f_calls. Qed.

Lemma frame_checkPermissions a b w : f (checkPermissions a b w) = f w.
Proof.
  unfold checkPermissions, setHasWebcamPermission, setHasScreenPermission, log.
  now rewrite f_webcam, f_calls, f_screen, f_calls.
Qed.

Lemma frame_fetchScreenshots r ok w : f (fetchScreenshots r ok w) = f w.
Proof.
  unfold fetchScreenshots, setError, log.
  destruct (user r), ok; rewrite ?f_error, ?f_calls; reflexivity.
Qed.

Lemma frame_upload p o w : f (upload p o w) = f w.
Proof. unfold upload, log. destruct o; rewrite ?f_bucket, ?f_calls; reflexivity. Qed.

Lemma frame_capture_screen r e env w l :
  f (fst (capture_screen r e env (w, l))) = f w.
Proof.
  unfold capture_screen, setHasScreenPermission.
  destruct (hasScreenPermission r); [|reflexivity].
  destruct (screen_stream env && screen_frame env).
  - destruct (screen_upload env); cbv beta iota zeta delta [fst];
      rewrite ?f_screen, frame_upload, frame_log; reflexivity.
  - cbv beta iota zeta delta [fst]. now rewrite f_screen, frame_log.
Qed.

Lemma frame_capture_webcam r e env w l :
  f (fst (capture_webcam r e env (w, l))) = f w.
Proof.
  unfold capture_webcam, setHasWebcamPermission.
  destruct (hasWebcamPermission r && webcamRef w); [|reflexivity].
  destruct (webcam_shot env); [|apply frame_log].
  unfold base64ToBlob. cbv beta iota zeta delta [fst].
  now rewrite f_webcam, frame_log.
Qed.

Lemma frame_captureScreenshots r env w : f (captureScreenshots r env w) = f w.
Proof.
  unfold captureScreenshots. destruct (currentTimeEntry r) as [e|]; [|reflexivity].
  pose proof (frame_capture_screen r e env w []) as Hs.
  destruct (capture_screen r e env (w, [])) as [w1 l1]. simpl in Hs.
  pose proof (frame_capture_webcam r e env w1 l1) as Hw.
  destruct (capture_webcam r e env (w1, l1)) as [w2 l2]. simpl in Hw.
  rewrite <- Hs, <- Hw.
  destruct (0 <? length l2)%nat; [|reflexivity].
  unfold setError.
  destruct (insert_outcome env);
    rewrite ?frame_fetchScreenshots, ?f_error, ?f_rows, ?frame_log; reflexivity.
Qed.

End PipelineFrame.

Ltac by_fields := intros; reflexivity.

Lemma handles_fetchScreenshots r ok w : handles (fetchScreenshots r ok w) = handles w.
Proof. apply frame_fetchScreenshots; by_fields. Qed.

Lemma handles_captureScreenshots r env w :
  handles (captureScreenshots r env w) = handles w.
Proof. apply frame_captureScreenshots; by_fields. Qed.

Lemma handles_updateElapsedTime D r now w :
  handles (updateElapsedTime D r now w) = handles w.
Proof.
  unfold updateElapsedTime.
  destruct (currentTimeEntry r) as [e|]; [|reflexivity].
  destruct (D (te_start_time e)); reflexivity.
Qed.

Lemma handles_start_insert r env w :
  handles (fst (start_insert r env w)) = handles w.
Proof. unfold start_insert. destruct (insert_id env), (user r); reflexivity. Qed.

Lemma handles_fire D id now cyc w : handles (fire D id now cyc w) = handles w.
Proof.
  unfold fire. destruct (timers w !! id) as [t|]; [|reflexivity].
  destruct (callback t);
    [apply handles_updateElapsedTime | apply handles_captureScreenshots].
Qed.

(** The three predicates only look at the handles. *)
Lemma no_capture_timer_handles w w' :
  handles w' = handles w -> no_capture_timer w -> no_capture_timer w'.
Proof. unfold handles, no_capture_timer. intros [= -> _ _]. auto. Qed.

Lemma handles_positive_handles w w' :
  handles w' = handles w -> handles_positive w -> handles_positive w'.
Proof. unfold handles, handles_positive. intros [= -> _ ->]. auto. Qed.

Lemma scheduler_ok_handles w w' :
  handles w' = handles w -> scheduler_ok w -> scheduler_ok w'.
Proof.
  unfold handles, scheduler_ok, handles_positive, capture_timer_in_ref.
  intros [= -> -> ->]. auto.
Qed.

(** ** The scheduler invariant: establish, preserve, use *)

Lemma with_timers_same w : with_timers (timers w) w = w.
Proof. destruct w; reflexivity. Qed.

Lemma clearInterval_inactive id w :
  timers w !! id = None -> clearInterval id w = w.
Proof.
  intros H. unfold clearInterval. rewrite (delete_id _ _ H).
  apply with_timers_same.
Qed.

Lemma clear_interval_ref_shrinks w id t :
  timers (clear_interval_ref w) !! id = Some t -> timers w !! id = Some t.
Proof.
  unfold clear_interval_ref.
  destruct (Js.truthy_id (intervalRef w)) as [k|]; simpl; [|auto].
  intros H. apply lookup_delete_Some in H. tauto.
Qed.

Lemma clear_interval_ref_keeps w :
  intervalRef (clear_interval_ref w) = intervalRef w /\
  next_timer (clear_interval_ref w) = next_timer w.
Proof.
  unfold clear_interval_ref.
  destruct (Js.truthy_id (intervalRef w)); split; reflexivity.
Qed.

Lemma clear_interval_ref_positive w :
  handles_positive w -> handles_positive (clear_interval_ref w).
Proof.
  intros [H0 H1]. split.
  - destruct (timers (clear_interval_ref w) !! 0%nat) as [t|] eqn:E; [|reflexivity].
    apply clear_interval_ref_shrinks in E. congruence.
  - destruct (clear_interval_ref_keeps w) as [_ ->]. exact H1.
Qed.

Lemma clear_interval_ref_no_capture w :
  no_capture_timer w -> no_capture_timer (clear_interval_ref w).
Proof.
  intros H id t Hid. apply clear_interval_ref_shrinks in Hid. eauto.
Qed.

(** Use: clearing the handle in [intervalRef] removes every capture
    interval. *)
Lemma clear_interval_ref_disarms w :
  scheduler_ok w -> no_capture_timer (clear_interval_ref w).
Proof.
  intros [[H0 _] Href] id t Hid.
  destruct (is_capture_timer t) eqn:Ht; [exfalso|reflexivity].
  pose proof (clear_interval_ref_shrinks _ _ _ Hid) as Hold.
  pose proof (Href _ _ Hold Ht) as Hr.
  unfold clear_interval_ref in Hid. rewrite Hr in Hid.
  destruct id as [|n]; simpl in Hid.
  - congruence.
  - rewrite lookup_delete_eq in Hid. discriminate Hid.
Qed.

Lemma no_capture_scheduler_ok w :
  handles_positive w -> no_capture_timer w -> scheduler_ok w.
Proof.
  intros Hp Hn. split; [exact Hp|].
  intros id t Hid Ht. rewrite (Hn _ _ Hid) in Ht. discriminate Ht.
Qed.

Lemma elapsed_effect_quiet D r now w :
  handles_positive w -> no_capture_timer w ->
  handles_positive (elapsed_effect D r now w) /\
  no_capture_timer (elapsed_effect D r now w).
Proof.
  intros Hp Hn. unfold elapsed_effect.
  destruct (currentTimeEntry r) as [e|] eqn:Hr.
  - pose proof (handles_updateElapsedTime D r now w) as Hh.
    set (w1 := updateElapsedTime D r now w) in *.
    destruct (handles_positive_handles _ _ Hh Hp) as [H0 H1].
    pose proof (no_capture_timer_handles _ _ Hh Hn) as Hn1.
    clearbody w1.
    split.
    + split; simpl; [|lia].
      rewrite lookup_insert_ne by lia. exact H0.
    + intros id t. simpl. intros Hid.
      apply lookup_insert_Some in Hid as [[_ <-]|[_ Hid]]; [reflexivity|eauto].
  - split; [apply clear_interval_ref_positive | apply clear_interval_ref_no_capture];
      assumption.
Qed.

(** Preserve: a commit or a tick keeps both the quiet scheduler and the
    invariant. *)
Lemma commit_quiet D now fetched w :
  handles_positive w -> no_capture_timer w ->
  handles_positive (commit D now fetched w) /\
  no_capture_timer (commit D now fetched w).
Proof.
  intros Hp Hn. unfold commit.
  set (r := render w). set (w1 := with_webcamRef (hasWebcamPermission r) w).
  assert (handles w1 = handles w) as H1 by reflexivity.
  pose proof (handles_positive_handles _ _ H1 Hp) as Hp1.
  pose proof (no_capture_timer_handles _ _ H1 Hn) as Hn1.
  destruct (decide (effect_dep w1 = currentTimeEntry r)); [tauto|].
  pose proof (clear_interval_ref_positive _ Hp1) as Hp2.
  pose proof (clear_interval_ref_no_capture _ Hn1) as Hn2.
  set (w2 := clear_interval_ref w1) in *.
  pose proof (handles_fetchScreenshots r fetched w2) as H3.
  pose proof (handles_positive_handles _ _ H3 Hp2) as Hp3.
  pose proof (no_capture_timer_handles _ _ H3 Hn2) as Hn3.
  destruct (elapsed_effect_quiet D r now _ Hp3 Hn3) as [Hp4 Hn4].
  split; [exact Hp4 | exact Hn4].
Qed.

Lemma commit_scheduler_ok D now fetched w :
  scheduler_ok w -> scheduler_ok (commit D now fetched w).
Proof.
  intros Hok. unfold commit.
  set (r := render w). set (w1 := with_webcamRef (hasWebcamPermission r) w).
  assert (handles w1 = handles w) as H1 by reflexivity.
  pose proof (scheduler_ok_handles _ _ H1 Hok) as Hok1.
  destruct (decide (effect_dep w1 = currentTimeEntry r)); [exact Hok1|].
  pose proof (clear_interval_ref_positive _ (proj1 Hok1)) as Hp2.
  pose proof (clear_interval_ref_disarms _ Hok1) as Hn2.
  set (w2 := clear_interval_ref w1) in *.
  pose proof (handles_fetchScreenshots r fetched w2) as H3.
  pose proof (handles_positive_handles _ _ H3 Hp2) as Hp3.
  pose proof (no_capture_timer_handles _ _ H3 Hn2) as Hn3.
  destruct (elapsed_effect_quiet D r now _ Hp3 Hn3) as [Hp4 Hn4].
  apply no_capture_scheduler_ok; [exact Hp4 | exact Hn4].
Qed.

Lemma step_quiet D w ev :
  handles_positive w /\ no_capture_timer w ->
  handles_positive (step D w ev) /\ no_capture_timer (step D w ev).
Proof.
  intros [Hp Hn]. destruct ev as [now fetched|id now cyc]; simpl.
  - apply commit_quiet; assumption.
  - pose proof (handles_fire D id now cyc w) as H.
    split; [eapply handles_positive_handles | eapply no_capture_timer_handles];
      eassumption.
Qed.

Lemma step_scheduler_ok D w ev :
  scheduler_ok w -> scheduler_ok (step D w ev).
Proof.
  intros Hok. destruct ev as [now fetched|id now cyc]; simpl.
  - apply commit_scheduler_ok. exact Hok.
  - eapply scheduler_ok_handles; [apply handles_fire | exact Hok].
Qed.

Lemma run_invariant D (P : World -> Prop) :
  (forall w ev, P w -> P (step D w ev)) ->
  forall evs w, P w -> P (run D evs w).
Proof.
  intros Hstep evs. unfold run.
  induction evs as [|ev evs IH]; intros w Hw; simpl; [exact Hw|].
  apply IH, Hstep, Hw.
Qed.

(** Establish: arming on a quiet scheduler puts the only capture interval
    in [intervalRef]. *)
Lemma start_arm_scheduler_ok r env w :
  handles_positive w -> no_capture_timer w -> scheduler_ok (start_arm r env w).
Proof.
  intros Hp Hn. unfold start_arm.
  set (w1 := checkPermissions (probe_screen env) (probe_webcam env) w).
  assert (handles w1 = handles w) as H1 by reflexivity.
  destruct (handles_positive_handles _ _ H1 Hp) as [H0 Hnext].
  pose proof (no_capture_timer_handles _ _ H1 Hn) as Hn1.
  clearbody w1.
  destruct (hasScreenPermission r || hasWebcamPermission r).
  - simpl. eapply scheduler_ok_handles; [apply handles_captureScreenshots|].
    split; [split|]; simpl.
    + rewrite lookup_insert_ne by lia. exact H0.
    + lia.
    + intros id t. simpl. intros Hid Ht.
      apply lookup_insert_Some in Hid as [[-> _]|[_ Hid]]; [reflexivity|].
      rewrite (Hn1 _ _ Hid) in Ht. discriminate Ht.
  - apply no_capture_scheduler_ok; [split; assumption | exact Hn1].
Qed.

(** Use: a stop whose update succeeded leaves the component idle with no
    capture interval. *)
Lemma stop_disarms r e env w :
  currentTimeEntry r = Some e -> update_ok env = true -> scheduler_ok w ->
  lifecycle (handleStopTracking r env w) = Idle /\
  handles_positive (handleStopTracking r env w) /\
  no_capture_timer (handleStopTracking r env w).
Proof.
  intros Hr Hu Hok. unfold handleStopTracking. rewrite Hr, Hu.
  match goal with |- context [clear_interval_ref ?x] => set (w1 := x) end.
  assert (handles w1 = handles w) as H1 by reflexivity.
  assert (st_currentTimeEntry w1 = None) as Hst by reflexivity.
  pose proof (scheduler_ok_handles _ _ H1 Hok) as Hok1. clearbody w1.
  split; [|split].
  - unfold lifecycle, clear_interval_ref.
    destruct (Js.truthy_id (intervalRef w1)); simpl; rewrite Hst; reflexivity.
  - apply clear_interval_ref_positive, Hok1.
  - apply clear_interval_ref_disarms, Hok1.
Qed.

(** With no capture interval active, a tick only refreshes the display. *)
Lemma quiet_tick_captures_nothing D id now cyc w :
  no_capture_timer w ->
  screenshots (fire D id now cyc w) = screenshots w /\
  bucket (fire D id now cyc w) = bucket w /\
  calls (fire D id now cyc w) = calls w.
Proof.
  intros Hn. unfold fire. destruct (timers w !! id) as [t|] eqn:Hid; [|tauto].
  pose proof (Hn _ _ Hid) as Ht. unfold is_capture_timer in Ht.
  destruct (callback t) as [r|r]; [|discriminate Ht].
  unfold updateElapsedTime. destruct (currentTimeEntry r) as [e|]; [|tauto].
  destruct (D (te_start_time e)); repeat split; reflexivity.
Qed.

(** ** Claims about the formatter and the guards *)

(** C3.  With a running entry whose start time denotes the instant [start]
    and a clock reading [now] not before it, [updateElapsedTime] displays
    the whole seconds [(now - start) / 1000] split into hours, minutes and
    seconds, written [HH:MM:SS]; each of the three fields has at least two
    characters and reads back as the number it stands for. *)
Theorem elapsed_time_is_padded_hms
    (D : string -> option Z) (r : Render) (e : TimeEntry) (start now : Z) (w : World) :
  currentTimeEntry r = Some e ->
  D (te_start_time e) = Some start ->
  start <= now ->
  let total := (now - start) / 1000 in
  let '(h, m, s) := hms_of_seconds total in
  st_elapsedTime (updateElapsedTime D r now w)
    = (two_digits h ++ ":" ++ two_digits m ++ ":" ++ two_digits s)%string /\
  h * 3600 + m * 60 + s = total /\
  0 <= h /\ 0 <= m < 60 /\ 0 <= s < 60 /\
  Forall (fun c => (2 <= String.length (two_digits c))%nat /\
                   Js.parse_decimal (two_digits c) = Some c) [h; m; s].
Proof.
  intros Hr HD Hle total.
  assert (0 <= total) as Ht by (apply Z.div_pos; lia).
  pose proof (hms_of_seconds_sound total Ht) as Hs.
  pose proof (format_elapsed_spec start now Hle) as Hf.
  unfold spec_elapsed in Hf. fold total in Hf.
  destruct (hms_of_seconds total) as [[h m] s].
  destruct Hs as (Hsum & Hh & Hm & Hsec).
  split; [|repeat split; try lia].
  - unfold updateElapsedTime. rewrite Hr, HD. exact Hf.
  - repeat constructor;
      solve [apply two_digits_length; lia | apply two_digits_value; lia].
Qed.

Lemma elapsed_time_is_padded_hms_witness :
  st_elapsedTime
    (updateElapsedTime Sample.Date_getTime (render Sample.recovered)
       (Sample.t0 + 3723999) Sample.recovered) = "01:02:03"%string.
Proof.
  exact (proj1 (elapsed_time_is_padded_hms Sample.Date_getTime
                  (render Sample.recovered) (Sample.session "s0") Sample.t0
                  (Sample.t0 + 3723999) Sample.recovered
                  eq_refl eq_refl ltac:(vm_compute; discriminate))).
Defined.

(** C10.  A capture cycle of a render without a current time entry changes
    nothing at all: no call is logged, nothing is uploaded or inserted, and
    both permission cells keep their values. *)
Theorem idle_cycle_is_noop (r : Render) (env : CycleEnv) (w : World) :
  currentTimeEntry r = None ->
  captureScreenshots r env w = w /\ cycle_batch r env w = [].
Proof.
  intros Hr. unfold captureScreenshots, cycle_batch. rewrite Hr. tauto.
Qed.

Lemma idle_cycle_is_noop_witness :
  captureScreenshots (render Sample.after_first_session) Sample.cycle_ok
    Sample.after_first_session = Sample.after_first_session.
Proof.
  exact (proj1 (idle_cycle_is_noop (render Sample.after_first_session)
                  Sample.cycle_ok Sample.after_first_session eq_refl)).
Defined.

(** C6.  [handleStopTracking] of a render without a current time entry
    returns at once: the world, and with it every table, the error cell and
    the lifecycle state, is unchanged. *)
Theorem stop_when_idle_is_noop (r : Render) (env : StopEnv) (w : World) :
  currentTimeEntry r = None ->
  handleStopTracking r env w = w.
Proof.
  intros Hr. unfold handleStopTracking. rewrite Hr. reflexivity.
Qed.

Lemma stop_when_idle_is_noop_witness :
  handleStopTracking (render Sample.loaded) (Sample.stop_env true) Sample.loaded
  = Sample.loaded /\ lifecycle Sample.loaded = Idle.
Proof.
  split.
  - exact (stop_when_idle_is_noop (render Sample.loaded) (Sample.stop_env true)
             Sample.loaded eq_refl).
  - reflexivity.
Defined.

(** C5.  A failed insert leaves the lifecycle state, the timers and the
    table as they were and only raises the error banner; so does a failed
    update of [end_time]. *)
Theorem persistence_failure_keeps_state
    (r : Render) (senv : StartEnv) (kenv : StopEnv) (e : TimeEntry) (w : World) :
  (insert_id senv = None ->
   let w' := handleStartTracking r senv w in
   lifecycle w' = lifecycle w /\ handles w' = handles w /\
   time_entries w' = time_entries w /\
   st_error w' = Some "Failed to start tracking"%string) /\
  (currentTimeEntry r = Some e -> update_ok kenv = false ->
   let w' := handleStopTracking r kenv w in
   lifecycle w' = lifecycle w /\ handles w' = handles w /\
   time_entries w' = time_entries w /\
   st_error w' = Some "Failed to stop tracking"%string).
Proof.
  split.
  - intros Hi. unfold handleStartTracking, start_insert. rewrite Hi.
    cbv zeta. repeat split.
  - intros Hr Hu. unfold handleStopTracking. rewrite Hr, Hu.
    cbv zeta. repeat split.
Qed.

Lemma persistence_failure_keeps_state_witness :
  lifecycle (handleStartTracking (render Sample.loaded)
               (Sample.start_env None true true) Sample.loaded) = Idle /\
  lifecycle (handleStopTracking (render Sample.recovered)
               (Sample.stop_env false) Sample.recovered)
  = Running (Sample.session "s0").
Proof.
  pose proof (persistence_failure_keeps_state (render Sample.loaded)
                (Sample.start_env None true true) (Sample.stop_env false)
                (Sample.session "s0") Sample.loaded) as [Hstart _].
  pose proof (persistence_failure_keeps_state (render Sample.recovered)
                (Sample.start_env None true true) (Sample.stop_env false)
                (Sample.session "s0") Sample.recovered) as [_ Hstop].
  split.
  - exact (proj1 (Hstart eq_refl)).
  - exact (proj1 (Hstop eq_refl eq_refl)).
Defined.

(** ** Claims about one capture cycle *)


Lemma capture_webcam_rows r e env w l :
  snd (capture_webcam r e env (w, l)) = l.
Proof.
  unfold capture_webcam.
  destruct (hasWebcamPermission r), (webcamRef w), (webcam_shot env);
    simpl; auto.
Qed.






(** ** Claims about the session table *)

Lemma open_count_app uid db e :
  open_count uid (db ++ [e])
  = (open_count uid db + if is_open_for uid e then 1 else 0)%nat.
Proof.
  unfold open_count. rewrite List.filter_app, List.length_app. simpl.
  destruct (is_open_for uid e); reflexivity.
Qed.

Lemma close_entry_open uid id now e :
  is_open_for uid (close_entry id now e) = true -> is_open_for uid e = true.
Proof.
  unfold close_entry. destruct (String.eqb (te_id e) id); [|auto].
  unfold is_open_for. simpl. rewrite andb_false_r. discriminate.
Qed.

Lemma open_count_close uid id now db :
  (open_count uid (map (close_entry id now) db) <= open_count uid db)%nat.
Proof.
  unfold open_count. induction db as [|e db IH]; simpl; [lia|].
  destruct (is_open_for uid (close_entry id now e)) eqn:E.
  - rewrite (close_entry_open _ _ _ _ E). simpl. lia.
  - destruct (is_open_for uid e); simpl; lia.
Qed.

Lemma time_entries_start_arm r env w :
  time_entries (start_arm r env w) = time_entries w.
Proof.
  unfold start_arm. destruct (hasScreenPermission r || hasWebcamPermission r);
    [|reflexivity].
  simpl. rewrite (frame_captureScreenshots time_entries) by by_fields.
  reflexivity.
Qed.

Lemma time_entries_start r env w :
  time_entries (handleStartTracking r env w) = time_entries w \/
  exists id u, insert_id env = Some id /\ user r = Some u /\
    time_entries (handleStartTracking r env w)
    = time_entries w ++
        [{| te_id := id; te_start_time := start_now env; te_end_time := None;
            te_user_id := profile_id u |}].
Proof.
  unfold handleStartTracking, start_insert.
  destruct (insert_id env) as [id|]; [|left; reflexivity].
  destruct (user r) as [u|]; [|left; reflexivity].
  right. exists id, u. rewrite time_entries_start_arm. auto.
Qed.

Lemma time_entries_stop r env w :
  time_entries (handleStopTracking r env w) = time_entries w \/
  exists e, time_entries (handleStopTracking r env w)
            = map (close_entry (te_id e) (stop_now env)) (time_entries w).
Proof.
  unfold handleStopTracking. destruct (currentTimeEntry r) as [e|]; [|auto].
  destruct (update_ok env); [|auto].
  right. exists e. unfold clear_interval_ref.
  match goal with |- context [Js.truthy_id ?x] => destruct (Js.truthy_id x) end;
    reflexivity.
Qed.

(** C7 (as amended).  On a table with at most one open session per user:
    a stop keeps it so; a start keeps it so provided the signed-in user has
    no open session in the table when the row is inserted; and an open
    session returned by the query made on load becomes the running one. *)
Theorem open_session_invariant_kept
    (r : Render) (senv : StartEnv) (kenv : StopEnv) (w : World) :
  at_most_one_open (time_entries w) ->
  ((forall u, user r = Some u ->
              open_count (profile_id u) (time_entries w) = 0%nat) ->
   at_most_one_open (time_entries (handleStartTracking r senv w))) /\
  at_most_one_open (time_entries (handleStopTracking r kenv w)) /\
  (forall u data a b, user r = Some u ->
     lifecycle (checkExistingTimeEntry r (query_data (Some data)) a b w)
     = Running data).
Proof.
  intros Hinv. split; [|split].
  - intros Hnone uid.
    destruct (time_entries_start r senv w) as [-> | (id & u & _ & Hu & ->)];
      [apply Hinv|].
    rewrite open_count_app. unfold is_open_for. simpl.
    destruct (String.eqb_spec (profile_id u) uid) as [<-|_]; simpl.
    + rewrite (Hnone u Hu). lia.
    + specialize (Hinv uid). lia.
  - intros uid.
    destruct (time_entries_stop r kenv w) as [-> | (e & ->)]; [apply Hinv|].
    pose proof (open_count_close uid (te_id e) (stop_now kenv) (time_entries w)).
    specialize (Hinv uid). lia.
  - intros u data a b Hu. unfold checkExistingTimeEntry. rewrite Hu. reflexivity.
Qed.

Lemma sample_tables_have_one_open (id : string) :
  at_most_one_open [Sample.session id].
Proof.
  intros uid. unfold open_count. simpl.
  destruct (is_open_for uid (Sample.session id)); simpl; lia.
Qed.

Lemma open_session_invariant_kept_witness :
  at_most_one_open
    (time_entries (handleStartTracking (render Sample.loaded)
                     (Sample.start_env (Some "s1") true true) Sample.loaded)) /\
  at_most_one_open
    (time_entries (handleStopTracking (render Sample.recovered)
                     (Sample.stop_env true) Sample.recovered)).
Proof.
  split.
  - refine (proj1 (open_session_invariant_kept (render Sample.loaded)
                     (Sample.start_env (Some "s1") true true)
                     (Sample.stop_env true) Sample.loaded _) _).
    + intros uid. vm_compute. lia.
    + intros u _. reflexivity.
  - refine (proj1 (proj2 (open_session_invariant_kept (render Sample.recovered)
                     (Sample.start_env (Some "s1") true true)
                     (Sample.stop_env true) Sample.recovered _))).
    exact (sample_tables_have_one_open "s0").
Defined.

(** C7 (as stated, refuted).  The page loaded while [alice] had an open
    session and the query of the first effect failed, so the component is
    idle; [handleStartTracking] inserts without looking and the table then
    holds two open sessions of hers. *)
Lemma start_opens_second_session :
  lifecycle Sample.loaded_query_failed = Idle /\
  at_most_one_open (time_entries Sample.loaded_query_failed) /\
  ~ at_most_one_open (time_entries Sample.unguarded_start).
Proof.
  split; [reflexivity|]. split.
  - exact (sample_tables_have_one_open "s0").
  - intros H. specialize (H "u1"%string). vm_compute in H. lia.
Qed.

(** ** Claims about arming the scheduler *)

(** The decision of line 208 is taken on the flags of the handler's render,
    whatever the probe has just answered. *)
Lemma start_arm_follows_render r env w :
  if hasScreenPermission r || hasWebcamPermission r then
    armed_for r (next_timer w) (start_arm r env w) /\
    intervalRef (start_arm r env w) = Some (next_timer w)
  else
    start_arm r env w = checkPermissions (probe_screen env) (probe_webcam env) w.
Proof.
  unfold start_arm, armed_for.
  destruct (hasScreenPermission r || hasWebcamPermission r); [|reflexivity].
  simpl.
  pose proof (handles_captureScreenshots r (first_cycle env)) as H.
  unfold handles in H.
  match goal with |- context [captureScreenshots r (first_cycle env) ?x] =>
    specialize (H x); injection H as -> -> _ end.
  simpl. rewrite lookup_insert_eq. split; reflexivity.
Qed.

(** C1 (fails on the code).  First start after the page has loaded: the
    insert succeeds and the probe grants both permissions, yet no interval
    is armed and no capture cycle runs; the only calls made are the insert
    and the two probes. *)
Theorem start_ignores_granted_probe :
  lifecycle Sample.first_start = Running (Sample.session "s1") /\
  st_hasScreenPermission Sample.first_start = true /\
  st_hasWebcamPermission Sample.first_start = true /\
  timers Sample.first_start = ∅ /\
  intervalRef Sample.first_start = None /\
  screenshots Sample.first_start = [] /\
  bucket Sample.first_start = [] /\
  calls Sample.first_start
  = calls Sample.loaded ++
      [call_insert_time_entry (Some "u1"%string) Sample.t0_iso;
       call_getDisplayMedia; call_getUserMedia].
Proof. vm_compute. repeat split. Qed.

(** C4 (fails on the code).  Second start in the same page, after a first
    session whose probe granted both permissions: this time the probe denies
    both, yet the capture interval is armed with period 300000 ms, because
    the handler still sees the flags of the previous session. *)
Theorem start_arms_despite_denied_probe :
  lifecycle Sample.second_start_refused = Running (Sample.session "s2") /\
  st_hasScreenPermission Sample.second_start_refused = false /\
  st_hasWebcamPermission Sample.second_start_refused = false /\
  armed_for (render Sample.after_first_session) 2 Sample.second_start_refused /\
  intervalRef Sample.second_start_refused = Some 2%nat /\
  screenshots Sample.second_start_refused = [].
Proof. vm_compute. repeat split. Qed.

(** Re-renders never write the capture tables. *)
Lemma commit_keeps_captures D now fetched w :
  screenshots (commit D now fetched w) = screenshots w /\
  bucket (commit D now fetched w) = bucket w.
Proof.
  unfold commit, elapsed_effect, updateElapsedTime, fetchScreenshots,
    clear_interval_ref, setInterval.
  repeat case_match; simpl; auto.
Qed.

(** Once no capture interval is active, no sequence of re-renders and ticks
    brings one back or captures anything. *)
Lemma quiet_run_captures_nothing D evs w :
  handles_positive w -> no_capture_timer w ->
  no_capture_timer (run D evs w) /\
  screenshots (run D evs w) = screenshots w /\
  bucket (run D evs w) = bucket w.
Proof.
  intros Hp Hn.
  pose proof (run_invariant D
    (fun x => (handles_positive x /\ no_capture_timer x) /\
              screenshots x = screenshots w /\ bucket x = bucket w)) as H.
  cut ((handles_positive (run D evs w) /\ no_capture_timer (run D evs w)) /\
       screenshots (run D evs w) = screenshots w /\
       bucket (run D evs w) = bucket w); [tauto|].
  apply H; [|tauto]. clear H.
  intros x ev ([Hpx Hnx] & Hs & Hb). split; [apply step_quiet; tauto|].
  destruct ev as [now fetched|id now cyc]; simpl.
  - destruct (commit_keeps_captures D now fetched x) as [-> ->]. tauto.
  - destruct (quiet_tick_captures_nothing D id now cyc x Hnx) as (-> & -> & _).
    tauto.
Qed.

Lemma handleStartTracking_phases r env w :
  handleStartTracking r env w
  = if snd (start_insert r env w) then start_arm r env (fst (start_insert r env w))
    else fst (start_insert r env w).
Proof.
  unfold handleStartTracking. destruct (start_insert r env w) as [w1 b].
  reflexivity.
Qed.

Lemma clear_interval_ref_idempotent w :
  clear_interval_ref (clear_interval_ref w) = clear_interval_ref w.
Proof.
  unfold clear_interval_ref at 2.
  destruct (Js.truthy_id (intervalRef w)) as [id|] eqn:E.
  - unfold clear_interval_ref. simpl. rewrite E.
    apply clearInterval_inactive. simpl. apply lookup_delete_eq.
  - unfold clear_interval_ref. rewrite E. reflexivity.
Qed.

(** C2 (fails on the code).  Two sessions that end idle after a stop whose
    update succeeded, with the 300000 ms capture interval still active.  In
    the first, Stop is clicked while the permission prompt of the start is
    open, and the interval is armed after the stop.  In the second, Start is
    clicked twice from one render: line 209 runs twice, the second handle
    replaces the first in [intervalRef], and nothing ever clears the
    first. *)
Theorem stop_leaves_capture_interval_armed :
  lifecycle Sample.stopped_while_probing = Idle /\
  Forall (fun e => te_end_time e <> None)
    (time_entries Sample.stopped_while_probing) /\
  armed_for (render Sample.after_first_session) 3 Sample.stopped_while_probing /\
  ~ no_capture_timer Sample.stopped_while_probing /\
  lifecycle Sample.started_twice_stopped = Idle /\
  armed_for (render Sample.after_first_session) 2 Sample.started_twice_stopped /\
  ~ no_capture_timer Sample.started_twice_stopped.
Proof.
  assert (armed_for (render Sample.after_first_session) 3
            Sample.stopped_while_probing) as HA by (vm_compute; reflexivity).
  assert (armed_for (render Sample.after_first_session) 2
            Sample.started_twice_stopped) as HB by (vm_compute; reflexivity).
  split; [reflexivity|]. split; [repeat constructor; discriminate|].
  split; [exact HA|]. split; [intros H; discriminate (H _ _ HA)|].
  split; [reflexivity|]. split; [exact HB|].
  intros H; discriminate (H _ _ HB).
Qed.

(** X18.  Take a world without capture interval, a start whose insert
    succeeds, any re-renders and ticks while the probe is awaited ([evs1]),
    the arming step, any re-renders, display updates and capture ticks
    afterwards ([evs2]), and only then a stop whose update succeeds.  Then
    the component is idle and no capture interval is left; whatever
    re-renders and ticks follow, none captures anything; and clearing again
    (an inactive handle, or the handle still in [intervalRef]) changes
    nothing. *)
Theorem stop_disarms_capture_scheduler
    (D : string -> option Z) (w : World) (r0 : Render) (senv : StartEnv)
    (evs1 evs2 : list Event) (rk : Render) (e : TimeEntry) (kenv : StopEnv) :
  handles_positive w -> no_capture_timer w ->
  snd (start_insert r0 senv w) = true ->
  currentTimeEntry rk = Some e -> update_ok kenv = true ->
  let w1 := run D evs1 (fst (start_insert r0 senv w)) in
  let w2 := run D evs2 (start_arm r0 senv w1) in
  let w3 := handleStopTracking rk kenv w2 in
  lifecycle w3 = Idle /\
  handles_positive w3 /\ no_capture_timer w3 /\
  (forall evs,
     no_capture_timer (run D evs w3) /\
     screenshots (run D evs w3) = screenshots w3 /\
     bucket (run D evs w3) = bucket w3) /\
  (forall id, timers w3 !! id = None -> clearInterval id w3 = w3) /\
  clear_interval_ref w3 = w3.
Proof.
  intros Hp Hn _ Hrk Hu w1 w2 w3.
  assert (handles_positive w1 /\ no_capture_timer w1) as [Hp1 Hn1].
  { subst w1. apply (run_invariant D (fun x => handles_positive x /\ no_capture_timer x)).
    - intros x ev. apply step_quiet.
    - pose proof (handles_start_insert r0 senv w) as H.
      split; [eapply handles_positive_handles | eapply no_capture_timer_handles];
        eassumption. }
  assert (scheduler_ok w2) as Hok2.
  { subst w2. apply (run_invariant D scheduler_ok).
    - intros x ev. apply step_scheduler_ok.
    - apply start_arm_scheduler_ok; assumption. }
  destruct (stop_disarms rk e kenv w2 Hrk Hu Hok2) as (Hidle & Hp3 & Hn3).
  fold w3 in Hidle, Hp3, Hn3.
  split; [exact Hidle|]. split; [exact Hp3|]. split; [exact Hn3|].
  split; [|split].
  - intros evs. apply quiet_run_captures_nothing; assumption.
  - intros id. apply clearInterval_inactive.
  - subst w3. unfold handleStopTracking. rewrite Hrk, Hu.
    apply clear_interval_ref_idempotent.
Qed.

Lemma empty_timers_quiet w : timers w = ∅ -> no_capture_timer w.
Proof. intros H id t. rewrite H, lookup_empty. discriminate. Qed.

Lemma stop_disarms_capture_scheduler_witness :
  armed_for (render Sample.after_first_session) 3 Sample.second_session_running /\
  no_capture_timer
    (handleStopTracking (render Sample.second_session_running)
       (Sample.stop_env true) Sample.second_session_running).
Proof.
  split.
  - vm_compute. reflexivity.
  - refine (proj1 (proj2 (proj2 (stop_disarms_capture_scheduler
              Sample.Date_getTime Sample.after_first_session
              (render Sample.after_first_session)
              (Sample.start_env (Some "s2") true true)
              Sample.while_probing Sample.while_running
              (render Sample.second_session_running) (Sample.session "s2")
              (Sample.stop_env true) _ _ _ _ _)))).
    + split; [reflexivity | vm_compute; lia].
    + apply empty_timers_quiet. reflexivity.
    + reflexivity.
    + reflexivity.
    + reflexivity.
Defined.

(** * Further properties of the component *)

(** ** What a capture cycle leaves alone *)

(** X1.  However a capture cycle ends (refused prompt, failed upload,
    rejected insert, failed gallery refresh), it leaves the interval table,
    [intervalRef], the lifecycle state and the [time_entries] table as they
    were: a failing cycle neither stops the scheduler nor ends the
    session. *)
Theorem cycle_keeps_scheduler_and_session (r : Render) (env : CycleEnv) (w : World) :
  handles (captureScreenshots r env w) = handles w /\
  lifecycle (captureScreenshots r env w) = lifecycle w /\
  time_entries (captureScreenshots r env w) = time_entries w /\
  webcamRef (captureScreenshots r env w) = webcamRef w.
Proof.
  split; [apply handles_captureScreenshots|]. split; [|split].
  - unfold lifecycle.
    rewrite (frame_captureScreenshots st_currentTimeEntry) by by_fields.
    reflexivity.
  - apply (frame_captureScreenshots time_entries); by_fields.
  - apply (frame_captureScreenshots webcamRef); by_fields.
Qed.

(** A cycle can only clear a permission cell. *)
Lemma capture_screen_flags r e env w l :
  let w' := fst (capture_screen r e env (w, l)) in
  (st_hasScreenPermission w' = st_hasScreenPermission w \/
   st_hasScreenPermission w' = false) /\
  st_hasWebcamPermission w' = st_hasWebcamPermission w.
Proof.
  unfold capture_screen.
  destruct (hasScreenPermission r), (screen_stream env), (screen_frame env),
    (screen_upload env); simpl; auto.
Qed.

Lemma capture_webcam_flags r e env w l :
  let w' := fst (capture_webcam r e env (w, l)) in
  (st_hasWebcamPermission w' = st_hasWebcamPermission w \/
   st_hasWebcamPermission w' = false) /\
  st_hasScreenPermission w' = st_hasScreenPermission w.
Proof.
  unfold capture_webcam.
  destruct (hasWebcamPermission r), (webcamRef w), (webcam_shot env);
    simpl; auto.
Qed.

(** X2.  A capture cycle never grants a permission: each of the two cells
    either keeps its value or becomes [false]. *)
Theorem cycle_never_grants (r : Render) (env : CycleEnv) (w : World) :
  (st_hasScreenPermission (captureScreenshots r env w) = st_hasScreenPermission w \/
   st_hasScreenPermission (captureScreenshots r env w) = false) /\
  (st_hasWebcamPermission (captureScreenshots r env w) = st_hasWebcamPermission w \/
   st_hasWebcamPermission (captureScreenshots r env w) = false).
Proof.
  unfold captureScreenshots. destruct (currentTimeEntry r) as [e|]; [|auto].
  pose proof (capture_screen_flags r e env w []) as Hs.
  destruct (capture_screen r e env (w, [])) as [w1 l1]. simpl in Hs.
  pose proof (capture_webcam_flags r e env w1 l1) as Hw.
  destruct (capture_webcam r e env (w1, l1)) as [w2 l2]. simpl in Hw.
  assert (forall x, st_hasScreenPermission x = st_hasScreenPermission w2 ->
                    st_hasWebcamPermission x = st_hasWebcamPermission w2 ->
    (st_hasScreenPermission x = st_hasScreenPermission w \/
     st_hasScreenPermission x = false) /\
    (st_hasWebcamPermission x = st_hasWebcamPermission w \/
     st_hasWebcamPermission x = false)) as Hfin.
  { intros x -> ->. destruct Hs as [Hs1 Hs2], Hw as [Hw1 Hw2].
    rewrite Hw2. split; [exact Hs1|].
    destruct Hw1 as [-> | ->]; [left; exact Hs2 | right; reflexivity]. }
  destruct (0 <? length l2)%nat; [|apply Hfin; reflexivity].
  unfold fetchScreenshots.
  destruct (insert_outcome env), (user r), (fetch_ok env);
    apply Hfin; reflexivity.
Qed.

(** ** Rows and uploads of one cycle *)







(** X4.  When the webcam is mounted and delivers a frame while the screen
    capture succeeds, the webcam branch throws at the conversion to a blob:
    the batch is the screen row alone and the webcam permission cell is
    cleared; the screen permission cell is untouched. *)
Theorem thrown_webcam_failure_is_isolated
    (r : Render) (e : TimeEntry) (shot : string) (env : CycleEnv) (w : World) :
  currentTimeEntry r = Some e ->
  hasScreenPermission r = true -> hasWebcamPermission r = true ->
  webcamRef w = true ->
  screen_stream env = true -> screen_frame env = true ->
  screen_upload env = resolves ->
  webcam_shot env = Some shot ->
  cycle_batch r env w
  = [{| time_entry_id := te_id e; storage_path := screenPath r e (timestamp env);
        type_ := screen; taken_at := timestamp env |}] /\
  st_hasWebcamPermission (captureScreenshots r env w) = false /\
  st_hasScreenPermission (captureScreenshots r env w) = st_hasScreenPermission w /\
  In (screenPath r e (timestamp env)) (bucket (captureScreenshots r env w)).
Proof.
  intros Hr Hs Hw Href Hst Hfr Hup Hshot.
  unfold cycle_batch, captureScreenshots, capture_screen, capture_webcam,
    base64ToBlob.
  rewrite Hr, Hs, Hst, Hfr, Hup, Hw. simpl. rewrite Href, Hshot. simpl.
  unfold fetchScreenshots.
  destruct (insert_outcome env), (user r), (fetch_ok env); simpl;
    repeat split; try reflexivity; apply in_or_app; right; left; reflexivity.
Qed.

Lemma thrown_webcam_failure_is_isolated_witness :
  cycle_batch (render Sample.recovered) cycle_webcam_blob_throws Sample.recovered
  = [capture_row "u1" "s0" screen "2024-01-01T00:05:00.000Z"] /\
  st_hasWebcamPermission
    (captureScreenshots (render Sample.recovered) cycle_webcam_blob_throws
       Sample.recovered) = false.
Proof.
  pose proof (thrown_webcam_failure_is_isolated (render Sample.recovered)
                (Sample.session "s0") "data:image/jpeg;base64,"
                cycle_webcam_blob_throws Sample.recovered
                eq_refl eq_refl eq_refl eq_refl eq_refl eq_refl eq_refl eq_refl)
    as (H1 & H2 & _).
  split; [exact H1 | exact H2].
Defined.

(** X5.  When the screen branch throws (the prompt is refused, the frame
    cannot be grabbed, or the upload rejects) the [catch] clears the screen
    permission cell, nothing is inserted, and the webcam branch still runs:
    with the webcam permitted and mounted [getScreenshot] is called, and a
    frame it delivers clears the webcam permission cell as well. *)
Theorem thrown_screen_failure_is_isolated
    (r : Render) (e : TimeEntry) (env : CycleEnv) (w : World) :
  currentTimeEntry r = Some e ->
  hasScreenPermission r = true ->
  screen_stream env && screen_frame env = false \/ screen_upload env = rejects ->
  cycle_batch r env w = [] /\
  screenshots (captureScreenshots r env w) = screenshots w /\
  st_hasScreenPermission (captureScreenshots r env w) = false /\
  (hasWebcamPermission r = true -> webcamRef w = true ->
   (exists cs, calls (captureScreenshots r env w) = calls w ++ cs /\
               In call_getScreenshot cs) /\
   (webcam_shot env <> None ->
    st_hasWebcamPermission (captureScreenshots r env w) = false)).
Proof.
  intros Hr Hs Hfail.
  assert (exists w1 cs1, capture_screen r e env (w, []) = (w1, []) /\
            st_hasScreenPermission w1 = false /\ webcamRef w1 = webcamRef w /\
            screenshots w1 = screenshots w /\ calls w1 = calls w ++ cs1)
    as (w1 & cs1 & E1 & Hflag & Href1 & Hrows1 & Hcalls1).
  { unfold capture_screen. rewrite Hs.
    destruct Hfail as [Hf|Hf]; rewrite Hf.
    - eexists. exists [call_getDisplayMedia]. repeat split.
    - destruct (screen_stream env && screen_frame env).
      + eexists. exists [call_getDisplayMedia;
                         call_upload (screenPath r e (timestamp env))].
        repeat split. unfold upload, log. simpl. rewrite <- app_assoc.
        reflexivity.
      + eexists. exists [call_getDisplayMedia]. repeat split. }
  unfold cycle_batch, captureScreenshots. rewrite Hr, E1.
  pose proof (capture_webcam_rows r e env w1 []) as Hl.
  pose proof (capture_webcam_flags r e env w1 []) as [_ Hkeep].
  pose proof (frame_capture_webcam screenshots ltac:(by_fields)
                ltac:(by_fields) r e env w1 []) as Hrows2.
  destruct (capture_webcam r e env (w1, [])) as [w2 l2] eqn:E2.
  simpl in Hl, Hkeep, Hrows2. subst l2. simpl.
  split; [reflexivity|]. split; [congruence|]. split; [congruence|].
  intros Hw Href. unfold capture_webcam, base64ToBlob in E2.
  rewrite Hw, Href1, Href in E2. simpl in E2.
  destruct (webcam_shot env) as [shot|]; injection E2 as <-; simpl.
  - split; [|reflexivity]. exists (cs1 ++ [call_getScreenshot]).
    rewrite Hcalls1, <- app_assoc. split; [reflexivity|].
    apply in_or_app. right. left. reflexivity.
  - split; [|intros H; contradiction]. exists (cs1 ++ [call_getScreenshot]).
    rewrite Hcalls1, <- app_assoc. split; [reflexivity|].
    apply in_or_app. right. left. reflexivity.
Qed.

Lemma thrown_screen_failure_is_isolated_witness :
  cycle_batch (render Sample.recovered) cycle_screen_prompt_dismissed
    Sample.recovered = [] /\
  st_hasScreenPermission
    (captureScreenshots (render Sample.recovered) cycle_screen_prompt_dismissed
       Sample.recovered) = false /\
  st_hasWebcamPermission
    (captureScreenshots (render Sample.recovered) cycle_screen_prompt_dismissed
       Sample.recovered) = false.
Proof.
  pose proof (thrown_screen_failure_is_isolated (render Sample.recovered)
                (Sample.session "s0") cycle_screen_prompt_dismissed
                Sample.recovered eq_refl eq_refl (or_introl eq_refl))
    as (H1 & _ & H3 & H4).
  split; [exact H1|]. split; [exact H3|].
  exact (proj2 (H4 eq_refl eq_refl) ltac:(discriminate)).
Defined.

(** X6.  The webcam branch is skipped silently, with no upload, no row and
    no change of the webcam permission cell, when the webcam component is
    not mounted or when it has no frame to give. *)
Theorem webcam_skipped_silently
    (r : Render) (e : TimeEntry) (env : CycleEnv) (w : World)
    (l : list ScreenshotInsert) :
  webcamRef w = false \/ webcam_shot env = None ->
  snd (capture_webcam r e env (w, l)) = l /\
  bucket (fst (capture_webcam r e env (w, l))) = bucket w /\
  st_hasWebcamPermission (fst (capture_webcam r e env (w, l)))
  = st_hasWebcamPermission w /\
  ~ In (call_upload (webcamPath r e (timestamp env)))
       (skipn (length (calls w)) (calls (fst (capture_webcam r e env (w, l))))).
Proof.
  intros H. unfold capture_webcam.
  destruct H as [H|H]; rewrite H.
  - rewrite andb_false_r. simpl. rewrite skipn_all. repeat split. intros [].
  - destruct (hasWebcamPermission r && webcamRef w); simpl.
    + rewrite skipn_app, skipn_all, Nat.sub_diag. simpl.
      repeat split. intros [H1|[]]. discriminate H1.
    + rewrite skipn_all. repeat split. intros [].
Qed.

Lemma webcam_skipped_silently_witness :
  snd (capture_webcam (render Sample.recovered) (Sample.session "s0")
         cycle_webcam_not_ready (Sample.recovered, [])) = [] /\
  st_hasWebcamPermission
    (fst (capture_webcam (render Sample.recovered) (Sample.session "s0")
            cycle_webcam_not_ready (Sample.recovered, []))) = true.
Proof.
  pose proof (webcam_skipped_silently (render Sample.recovered)
                (Sample.session "s0") cycle_webcam_not_ready Sample.recovered []
                (or_intror eq_refl)) as (H1 & _ & H3 & _).
  split; [exact H1 | exact H3].
Defined.

(** ** What whole runs of the component never do *)

Lemma handles_checkExistingTimeEntry r q a b w :
  handles (checkExistingTimeEntry r q a b w) = handles w.
Proof.
  unfold checkExistingTimeEntry. destruct (user r); [|reflexivity].
  destruct q as [|[data|]]; reflexivity.
Qed.

Lemma mount_quiet D q a b now fetched u db :
  handles_positive (mount D q a b now fetched (initial_world u db)) /\
  no_capture_timer (mount D q a b now fetched (initial_world u db)).
Proof.
  unfold mount.
  set (w0 := initial_world u db).
  assert (handles_positive w0) as Hp0 by (split; [apply lookup_empty | simpl; lia]).
  assert (no_capture_timer w0) as Hn0 by (apply empty_timers_quiet; reflexivity).
  pose proof (handles_checkExistingTimeEntry (render w0) q a b w0) as H1.
  set (w1 := checkExistingTimeEntry (render w0) q a b w0) in *.
  pose proof (handles_fetchScreenshots (render w0) fetched w1) as H2.
  set (w2 := fetchScreenshots (render w0) fetched w1) in *.
  assert (handles w2 = handles w0) as H by congruence.
  destruct (elapsed_effect_quiet D (render w0) now w2
              (handles_positive_handles _ _ H Hp0)
              (no_capture_timer_handles _ _ H Hn0)) as [Hp Hn].
  split; [exact Hp | exact Hn].
Qed.

(** X7.  Loading the page never arms the capture scheduler, whatever the
    query for an open session and the two prompts answer; and as long as
    only re-renders and ticks follow (no click), no capture interval
    appears and nothing is uploaded or inserted.  A session recovered after
    a reload is therefore timed but never captured. *)
Theorem reload_never_arms_scheduler
    (D : string -> option Z) (u : option Profile) (db : list TimeEntry)
    (q : QueryOutcome) (screen_granted webcam_granted : bool) (now : Z)
    (fetched : bool) (evs : list Event) :
  no_capture_timer
    (run D evs (mount D q screen_granted webcam_granted now fetched
                  (initial_world u db))) /\
  screenshots
    (run D evs (mount D q screen_granted webcam_granted now fetched
                  (initial_world u db))) = [] /\
  bucket
    (run D evs (mount D q screen_granted webcam_granted now fetched
                  (initial_world u db))) = [].
Proof.
  destruct (mount_quiet D q screen_granted webcam_granted now fetched u db)
    as [Hp Hn].
  destruct (quiet_run_captures_nothing D evs _ Hp Hn) as (H1 & H2 & H3).
  split; [exact H1|]. rewrite H2, H3. unfold mount.
  split.
  - unfold elapsed_effect, updateElapsedTime, clear_interval_ref, setInterval.
    repeat case_match; simpl;
      rewrite ?(frame_fetchScreenshots screenshots) by by_fields;
      unfold checkExistingTimeEntry; repeat case_match; reflexivity.
  - unfold elapsed_effect, updateElapsedTime, clear_interval_ref, setInterval.
    repeat case_match; simpl;
      rewrite ?(frame_fetchScreenshots bucket) by by_fields;
      unfold checkExistingTimeEntry; repeat case_match; reflexivity.
Qed.

(** The predicate of idle capture intervals only looks at the handles. *)
Lemma capture_timers_idle_handles w w' :
  handles w' = handles w -> capture_timers_idle w -> capture_timers_idle w'.
Proof. unfold handles, capture_timers_idle. intros [= -> _ _]. auto. Qed.

Lemma clear_interval_ref_idle w :
  capture_timers_idle w -> capture_timers_idle (clear_interval_ref w).
Proof.
  intros H id t r Hid. apply clear_interval_ref_shrinks in Hid. eauto.
Qed.

Lemma elapsed_effect_idle D r now w :
  capture_timers_idle w -> capture_timers_idle (elapsed_effect D r now w).
Proof.
  intros H. unfold elapsed_effect.
  destruct (currentTimeEntry r) as [e|]; [|apply clear_interval_ref_idle, H].
  pose proof (handles_updateElapsedTime D r now w) as Hh.
  pose proof (capture_timers_idle_handles _ _ Hh H) as H1.
  set (w1 := updateElapsedTime D r now w) in *. clearbody w1.
  intros id t r'. simpl. intros Hid Hcb.
  apply lookup_insert_Some in Hid as [[_ <-]|[_ Hid]]; [discriminate Hcb|eauto].
Qed.

Lemma commit_idle D now fetched w :
  capture_timers_idle w -> capture_timers_idle (commit D now fetched w).
Proof.
  intros H. unfold commit.
  set (r := render w). set (w1 := with_webcamRef (hasWebcamPermission r) w).
  assert (capture_timers_idle w1) as H1 by exact H.
  destruct (decide (effect_dep w1 = currentTimeEntry r)); [exact H1|].
  apply (capture_timers_idle_handles (elapsed_effect D r now
           (fetchScreenshots r fetched (clear_interval_ref w1)))); [reflexivity|].
  apply elapsed_effect_idle.
  eapply capture_timers_idle_handles; [apply handles_fetchScreenshots|].
  apply clear_interval_ref_idle, H1.
Qed.

Lemma start_arm_idle r env w :
  currentTimeEntry r = None ->
  capture_timers_idle w -> capture_timers_idle (start_arm r env w).
Proof.
  intros Hr H. unfold start_arm.
  destruct (hasScreenPermission r || hasWebcamPermission r); [|exact H].
  simpl. eapply capture_timers_idle_handles; [apply handles_captureScreenshots|].
  intros id t r'. simpl. intros Hid Hcb.
  apply lookup_insert_Some in Hid as [[_ <-]|[_ Hid]].
  - simpl in Hcb. injection Hcb as <-. exact Hr.
  - exact (H _ _ _ Hid Hcb).
Qed.

Lemma handleStopTracking_idle r env w :
  capture_timers_idle w -> capture_timers_idle (handleStopTracking r env w).
Proof.
  intros H. unfold handleStopTracking.
  destruct (currentTimeEntry r) as [e|]; [|exact H].
  destruct (update_ok env); [|exact H].
  apply clear_interval_ref_idle. exact H.
Qed.

Lemma captures_of_start_insert r env w :
  screenshots (fst (start_insert r env w)) = screenshots w /\
  bucket (fst (start_insert r env w)) = bucket w.
Proof. unfold start_insert. destruct (insert_id env), (user r); split; reflexivity. Qed.

Lemma captures_of_stop r env w :
  screenshots (handleStopTracking r env w) = screenshots w /\
  bucket (handleStopTracking r env w) = bucket w.
Proof.
  unfold handleStopTracking, clear_interval_ref.
  repeat case_match; split; reflexivity.
Qed.

Lemma captures_of_idle_start_arm r env w :
  currentTimeEntry r = None ->
  screenshots (start_arm r env w) = screenshots w /\
  bucket (start_arm r env w) = bucket w.
Proof.
  intros Hr. unfold start_arm.
  destruct (hasScreenPermission r || hasWebcamPermission r); [|split; reflexivity].
  simpl. unfold captureScreenshots. rewrite Hr. split; reflexivity.
Qed.

Lemma captures_of_idle_fire D id now cyc w :
  capture_timers_idle w ->
  screenshots (fire D id now cyc w) = screenshots w /\
  bucket (fire D id now cyc w) = bucket w.
Proof.
  intros H. unfold fire. destruct (timers w !! id) as [t|] eqn:Hid; [|tauto].
  destruct (callback t) as [r|r] eqn:Hcb.
  - unfold updateElapsedTime. repeat case_match; split; reflexivity.
  - unfold captureScreenshots. rewrite (H _ _ _ Hid Hcb). tauto.
Qed.

Lemma perform_keeps_captures D w a :
  capture_timers_idle w ->
  capture_timers_idle (perform D w a) /\
  screenshots (perform D w a) = screenshots w /\
  bucket (perform D w a) = bucket w.
Proof.
  intros H. destruct a as [r env|r env|r env|[now fetched|id now cyc]]; simpl.
  - unfold button. destruct (currentTimeEntry r); [tauto|].
    split; [|apply captures_of_start_insert].
    eapply capture_timers_idle_handles; [apply handles_start_insert | exact H].
  - unfold button. destruct (currentTimeEntry r) eqn:Hr; [tauto|].
    split; [apply start_arm_idle; assumption |].
    apply captures_of_idle_start_arm, Hr.
  - unfold button. destruct (currentTimeEntry r); [|tauto].
    split; [apply handleStopTracking_idle, H | apply captures_of_stop].
  - split; [apply commit_idle, H | apply commit_keeps_captures].
  - split; [|apply captures_of_idle_fire, H].
    eapply capture_timers_idle_handles; [apply handles_fire | exact H].
Qed.

(** X8.  Starting from a world whose capture intervals, if any, belong to
    renders without current entry (a freshly loaded page has none at
    all), no sequence of clicks on Start and Stop, re-renders and ticks
    ever uploads an object or inserts a [screenshots] row: the Start
    button only exists in renders without current entry, and the cycle it
    runs and arms is the cycle of that render, which returns at line
    238. *)
Theorem buttons_never_capture
    (D : string -> option Z) (acts : list Action) (w : World) :
  capture_timers_idle w ->
  capture_timers_idle (perform_all D acts w) /\
  screenshots (perform_all D acts w) = screenshots w /\
  bucket (perform_all D acts w) = bucket w.
Proof.
  unfold perform_all. revert w.
  induction acts as [|a acts IH]; intros w H; simpl; [tauto|].
  destruct (perform_keeps_captures D w a H) as (H1 & H2 & H3).
  destruct (IH _ H1) as (G1 & G2 & G3).
  split; [exact G1|]. rewrite G2, G3. tauto.
Qed.

Lemma buttons_never_capture_witness :
  armed_for (render Sample.after_first_session) 3
    (perform_all Sample.Date_getTime two_sessions Sample.loaded) /\
  screenshots (perform_all Sample.Date_getTime two_sessions Sample.loaded) = [].
Proof.
  split; [vm_compute; reflexivity|].
  refine (proj1 (proj2 (buttons_never_capture Sample.Date_getTime two_sessions
                          Sample.loaded _))).
  intros id t r Hid. vm_compute in Hid. discriminate Hid.
Defined.

(** ** A session from start to stop *)

Lemma session_cells_start_arm r env w :
  st_currentTimeEntry (start_arm r env w) = st_currentTimeEntry w.
Proof.
  unfold start_arm.
  destruct (hasScreenPermission r || hasWebcamPermission r); [|reflexivity].
  simpl. rewrite (frame_captureScreenshots st_currentTimeEntry) by by_fields.
  reflexivity.
Qed.

Lemma close_entry_other id now db :
  Forall (fun e => te_id e <> id) db -> map (close_entry id now) db = db.
Proof.
  induction 1 as [|e db He _ IH]; simpl; [reflexivity|].
  rewrite IH. unfold close_entry.
  destruct (String.eqb_spec (te_id e) id); [contradiction|reflexivity].
Qed.

(** X9.  A start whose insert is accepted with an id not yet in the table,
    followed by a stop clicked in the next render whose update is accepted,
    adds exactly one row to [time_entries]: the new session, closed at the
    stop time.  All other rows are untouched, the component is idle again
    and the user has no more open sessions than before. *)
Theorem start_then_stop_adds_one_closed_row
    (r : Render) (u : Profile) (id : string) (senv : StartEnv) (kenv : StopEnv)
    (w : World) :
  user r = Some u ->
  insert_id senv = Some id ->
  Forall (fun e => te_id e <> id) (time_entries w) ->
  update_ok kenv = true ->
  let w1 := handleStartTracking r senv w in
  let w2 := handleStopTracking (render w1) kenv w1 in
  lifecycle w1 =
    Running {| te_id := id; te_start_time := start_now senv;
               te_end_time := None; te_user_id := profile_id u |} /\
  time_entries w2
  = time_entries w ++
      [{| te_id := id; te_start_time := start_now senv;
          te_end_time := Some (stop_now kenv); te_user_id := profile_id u |}] /\
  lifecycle w2 = Idle /\
  forall uid, open_count uid (time_entries w2) = open_count uid (time_entries w).
Proof.
  intros Hu Hid Hfresh Hok w1 w2.
  assert (st_currentTimeEntry w1
          = Some {| te_id := id; te_start_time := start_now senv;
                    te_end_time := None; te_user_id := profile_id u |}) as Hst.
  { subst w1. unfold handleStartTracking, start_insert. rewrite Hid, Hu.
    rewrite session_cells_start_arm. reflexivity. }
  assert (time_entries w1
          = time_entries w ++
              [{| te_id := id; te_start_time := start_now senv;
                  te_end_time := None; te_user_id := profile_id u |}]) as Hdb.
  { subst w1. unfold handleStartTracking, start_insert. rewrite Hid, Hu.
    rewrite time_entries_start_arm. reflexivity. }
  assert (time_entries w2
          = time_entries w ++
              [{| te_id := id; te_start_time := start_now senv;
                  te_end_time := Some (stop_now kenv);
                  te_user_id := profile_id u |}]) as Hdb2.
  { subst w2. unfold handleStopTracking. simpl. rewrite Hst, Hok.
    unfold clear_interval_ref.
    match goal with |- context [Js.truthy_id ?x] => destruct (Js.truthy_id x) end;
      simpl; rewrite Hdb, map_app, close_entry_other by exact Hfresh;
      simpl; unfold close_entry; simpl; rewrite String.eqb_refl; reflexivity. }
  split; [unfold lifecycle; rewrite Hst; reflexivity|].
  split; [exact Hdb2|]. split.
  - subst w2. unfold handleStopTracking. simpl. rewrite Hst, Hok.
    unfold lifecycle, clear_interval_ref.
    match goal with |- context [Js.truthy_id ?x] => destruct (Js.truthy_id x) end;
      reflexivity.
  - intros uid. rewrite Hdb2, open_count_app. unfold is_open_for. simpl.
    rewrite andb_false_r. lia.
Qed.

Lemma start_then_stop_adds_one_closed_row_witness :
  time_entries
    (handleStopTracking (render Sample.first_start) (Sample.stop_env true)
       Sample.first_start)
  = [{| te_id := "s1"; te_start_time := Sample.t0_iso;
        te_end_time := Some Sample.t1_iso; te_user_id := "u1" |}].
Proof.
  exact (proj1 (proj2 (start_then_stop_adds_one_closed_row (render Sample.loaded)
           Sample.alice "s1" (Sample.start_env (Some "s1") true true)
           (Sample.stop_env true) Sample.loaded eq_refl eq_refl
           ltac:(constructor) eq_refl))).
Defined.

(** ** The display when the clock is behind the start time *)

Lemma Number_toString_negative (z : Z) :
  z < 0 -> exists rest, Js.Number_toString z = String "-" rest /\ rest <> EmptyString.
Proof.
  intros Hz. destruct z as [|p|p]; try lia.
  unfold Js.Number_toString. simpl.
  exists (NilZero.string_of_uint (Pos.to_uint p)). split; [reflexivity|].
  intros E. pose proof (NilZero.usu_gen (Pos.to_uint p)) as H.
  rewrite E in H. simpl in H. destruct H; discriminate.
Qed.

(** X10.  When the clock reads less than the start time of the running
    entry (the start time comes from another clock), the hours field is
    negative and the displayed text starts with a minus sign instead of
    being clamped to [00:00:00]. *)
Theorem elapsed_time_negative_when_clock_behind
    (D : string -> option Z) (r : Render) (e : TimeEntry) (start now : Z) (w : World) :
  currentTimeEntry r = Some e ->
  D (te_start_time e) = Some start ->
  now < start ->
  exists rest, st_elapsedTime (updateElapsedTime D r now w) = String "-" rest.
Proof.
  intros Hr HD Hlt. unfold updateElapsedTime. rewrite Hr, HD. simpl.
  unfold format_elapsed.
  assert (elapsed_hours (Js.floor_div (now - start) 1000) < 0) as Hh.
  { unfold elapsed_hours, Js.floor_div.
    assert ((now - start) / 1000 < 0) by (apply Z.div_lt_upper_bound; lia).
    apply Z.div_lt_upper_bound; lia. }
  destruct (Number_toString_negative _ Hh) as (rest & E & Hne).
  cbv zeta. rewrite E. unfold Js.padStart2.
  destruct rest as [|c rest]; [contradiction|]. simpl.
  eexists. reflexivity.
Qed.

Lemma elapsed_time_negative_when_clock_behind_witness :
  exists rest,
    st_elapsedTime
      (updateElapsedTime Sample.Date_getTime (render Sample.recovered)
         (Sample.t0 - 1) Sample.recovered) = String "-" rest.
Proof.
  exact (elapsed_time_negative_when_clock_behind Sample.Date_getTime
           (render Sample.recovered) (Sample.session "s0") Sample.t0
           (Sample.t0 - 1) Sample.recovered eq_refl eq_refl
           ltac:(vm_compute; reflexivity)).
Defined.

(** ** The display interval *)

Lemma clear_interval_ref_other w id :
  intervalRef w <> Some id ->
  timers (clear_interval_ref w) !! id = timers w !! id.
Proof.
  intros H. unfold clear_interval_ref.
  destruct (intervalRef w) as [[|k]|]; simpl; try reflexivity.
  apply lookup_delete_ne. congruence.
Qed.

Lemma clear_interval_ref_cells w :
  st_currentTimeEntry (clear_interval_ref w) = st_currentTimeEntry w /\
  effect_dep (clear_interval_ref w) = effect_dep w.
Proof.
  unfold clear_interval_ref. destruct (Js.truthy_id (intervalRef w)); tauto.
Qed.

(** A re-render that finds a new current entry starts the display interval
    under the next handle and stores that handle in [intervalRef]. *)
Lemma commit_starts_display D now fetched w e :
  st_currentTimeEntry w = Some e -> effect_dep w <> Some e ->
  let w' := commit D now fetched w in
  timers w' !! next_timer w
  = Some {| callback := cb_updateElapsedTime (render w); period_ms := 1000 |} /\
  intervalRef w' = Some (next_timer w) /\ next_timer w' = S (next_timer w) /\
  effect_dep w' = Some e /\ st_currentTimeEntry w' = Some e.
Proof.
  intros Hst Hdep. unfold commit.
  assert (currentTimeEntry (render w) = Some e) as Hr by exact Hst.
  set (r := render w) in *.
  set (w1 := with_webcamRef (hasWebcamPermission r) w).
  assert (effect_dep w1 = effect_dep w) as E1 by reflexivity.
  destruct (decide (effect_dep w1 = currentTimeEntry r)) as [E|_];
    [congruence|].
  set (w2 := fetchScreenshots r fetched (clear_interval_ref w1)).
  assert (next_timer w2 = next_timer w /\ st_currentTimeEntry w2 = Some e)
    as [Hn2 Hst2].
  { subst w2. split.
    - rewrite (frame_fetchScreenshots next_timer) by by_fields.
      destruct (clear_interval_ref_keeps w1) as [_ ->]. reflexivity.
    - rewrite (frame_fetchScreenshots st_currentTimeEntry) by by_fields.
      destruct (clear_interval_ref_cells w1) as [-> _]. exact Hst. }
  clearbody w2. unfold elapsed_effect. rewrite Hr.
  pose proof (handles_updateElapsedTime D r now w2) as Hh.
  assert (st_currentTimeEntry (updateElapsedTime D r now w2) = Some e) as Hst3.
  { unfold updateElapsedTime. rewrite Hr.
    destruct (D (te_start_time e)); exact Hst2. }
  set (w3 := updateElapsedTime D r now w2) in *. clearbody w3.
  unfold handles in Hh. injection Hh as Ht Hi Hn. simpl.
  rewrite Hn, Hn2, lookup_insert_eq. repeat split. exact Hst3.
Qed.

(** X11.  The handle of the one-second display interval is lost when the
    capture interval is armed: if the component re-renders while the probe
    is awaited and the handler's render has a permission flag set, line 209
    overwrites [intervalRef], the stop clears the capture interval only,
    and the display interval started for the session is still active after
    the stop and the following re-render. *)
Theorem display_interval_outlives_session
    (D : string -> option Z) (w : World) (r0 : Render) (senv : StartEnv)
    (now1 : Z) (fetched1 : bool) (rk : Render) (e : TimeEntry) (kenv : StopEnv)
    (now2 : Z) (fetched2 : bool) :
  effect_dep w = None ->
  snd (start_insert r0 senv w) = true ->
  hasScreenPermission r0 || hasWebcamPermission r0 = true ->
  currentTimeEntry rk = Some e -> update_ok kenv = true ->
  let w0 := fst (start_insert r0 senv w) in
  let w1 := commit D now1 fetched1 w0 in
  let w2 := start_arm r0 senv w1 in
  let w3 := commit D now2 fetched2 (handleStopTracking rk kenv w2) in
  lifecycle w3 = Idle /\
  timers w3 !! next_timer w
  = Some {| callback := cb_updateElapsedTime (render w0); period_ms := 1000 |}.
Proof.
  intros Hdep Hins Hflags Hrk Hok w0 w1 w2 w3.
  assert (exists entry, st_currentTimeEntry w0 = Some entry /\
                        effect_dep w0 = None /\ next_timer w0 = next_timer w)
    as (entry & Hst0 & Hdep0 & Hn0).
  { subst w0. unfold start_insert in *.
    destruct (insert_id senv), (user r0); try discriminate Hins.
    eexists. split; [reflexivity|]. split; [exact Hdep | reflexivity]. }
  destruct (commit_starts_display D now1 fetched1 w0 entry Hst0
              ltac:(rewrite Hdep0; discriminate))
    as (Ht1 & Hi1 & Hn1 & Hd1 & Hst1).
  fold w1 in Ht1, Hi1, Hn1, Hd1, Hst1. rewrite Hn0 in *.
  set (A := {| callback := cb_updateElapsedTime (render w0); period_ms := 1000 |}) in *.
  set (n := next_timer w) in *.
  assert (timers w2 !! n = Some A /\ intervalRef w2 = Some (S n) /\
          effect_dep w2 = Some entry) as (Ht2 & Hi2 & Hd2).
  { subst w2. unfold start_arm. rewrite Hflags. simpl.
    pose proof (handles_captureScreenshots r0 (first_cycle senv)) as Hh.
    unfold handles in Hh.
    match goal with |- context [captureScreenshots r0 (first_cycle senv) ?x] =>
      specialize (Hh x); injection Hh as -> -> _;
      rewrite (frame_captureScreenshots effect_dep) by by_fields end.
    simpl. rewrite Hn1, lookup_insert_ne by lia. auto. }
  subst w3. set (w2' := handleStopTracking rk kenv w2).
  assert (timers w2' !! n = Some A /\ intervalRef w2' = Some (S n) /\
          effect_dep w2' = Some entry /\ st_currentTimeEntry w2' = None)
    as (Ht3 & Hi3 & Hd3 & Hst3).
  { subst w2'. unfold handleStopTracking. rewrite Hrk, Hok.
    unfold clear_interval_ref. simpl. rewrite Hi2. simpl.
    rewrite lookup_delete_ne by lia. auto. }
  clearbody w2'. unfold commit.
  set (r := render w2').
  assert (currentTimeEntry r = None) as Hr by exact Hst3.
  set (x1 := with_webcamRef (hasWebcamPermission r) w2').
  assert (effect_dep x1 = Some entry) as Hx1 by exact Hd3.
  destruct (decide (effect_dep x1 = currentTimeEntry r)) as [E|_];
    [congruence|].
  unfold elapsed_effect. rewrite Hr.
  set (x2 := clear_interval_ref x1).
  assert (timers x2 !! n = Some A /\ intervalRef x2 = Some (S n) /\
          st_currentTimeEntry x2 = None) as (Ht4 & Hi4 & Hst4).
  { subst x2. rewrite clear_interval_ref_other
      by (change (intervalRef x1) with (intervalRef w2'); rewrite Hi3;
          intros [= H]; lia).
    destruct (clear_interval_ref_keeps x1) as [-> _].
    destruct (clear_interval_ref_cells x1) as [-> _]. auto. }
  clearbody x2.
  set (x3 := fetchScreenshots r fetched2 x2).
  assert (timers x3 !! n = Some A /\ intervalRef x3 = Some (S n) /\
          st_currentTimeEntry x3 = None) as (Ht5 & Hi5 & Hst5).
  { subst x3.
    rewrite (frame_fetchScreenshots timers), (frame_fetchScreenshots intervalRef),
      (frame_fetchScreenshots st_currentTimeEntry) by by_fields. auto. }
  clearbody x3. split.
  - unfold lifecycle. simpl.
    destruct (clear_interval_ref_cells x3) as [-> _]. rewrite Hst5. reflexivity.
  - simpl. rewrite clear_interval_ref_other
      by (rewrite Hi5; intros [= H]; lia). exact Ht5.
Qed.

Lemma display_interval_outlives_session_witness :
  timers
    (commit Sample.Date_getTime (Sample.t0 + 310000) true
       (handleStopTracking (render Sample.second_session_running)
          (Sample.stop_env true)
          (start_arm (render Sample.after_first_session)
             (Sample.start_env (Some "s2") true true)
             (commit Sample.Date_getTime Sample.t0 true
                (fst (start_insert (render Sample.after_first_session)
                        (Sample.start_env (Some "s2") true true)
                        Sample.after_first_session))))))
  !! 2%nat
  = Some {| callback :=
              cb_updateElapsedTime
                {| user := Some Sample.alice;
                   currentTimeEntry := Some (Sample.session "s2");
                   hasScreenPermission := true; hasWebcamPermission := true |};
            period_ms := 1000 |}.
Proof.
  exact (proj2 (display_interval_outlives_session Sample.Date_getTime
                  Sample.after_first_session (render Sample.after_first_session)
                  (Sample.start_env (Some "s2") true true) Sample.t0 true
                  (render Sample.second_session_running) (Sample.session "s2")
                  (Sample.stop_env true) (Sample.t0 + 310000) true
                  eq_refl eq_refl eq_refl eq_refl eq_refl)).
Defined.

(** * Properties of the other components *)

(** ** Dashboard durations *)

Lemma mod_product_div (a b c : Z) :
  0 < b -> 0 < c -> (a mod (b * c)) / b = (a / b) mod c.
Proof.
  intros Hb Hc. rewrite Z.rem_mul_r by lia.
  rewrite (Z.mul_comm b), Z.add_comm, Z.div_add_l by lia.
  rewrite (Z.div_small (a mod b)) by (apply Z.mod_pos_bound; lia). lia.
Qed.

Lemma hours_minutes_whole_minutes (d : Z) :
  0 <= d ->
  hours_minutes d
  = (two_digits (d / 60000 / 60) ++ ":" ++ two_digits ((d / 60000) mod 60))%string.
Proof.
  intros Hd. unfold hours_minutes, Js.floor_div, Js.rem. cbv zeta.
  rewrite Z.rem_mod_nonneg by lia.
  replace (1000 * 60 * 60) with (60000 * 60) by lia.
  replace (1000 * 60) with 60000 by lia.
  rewrite mod_product_div by lia.
  rewrite <- Z.div_div by lia.
  assert (0 <= d / 60000) by (apply Z.div_pos; lia).
  rewrite !padStart2_two_digits;
    [reflexivity | apply Z.mod_pos_bound; lia | apply Z.div_pos; lia].
Qed.

(** X12.  For timestamps that parse and an end not before the start,
    [calculateDuration] prints the whole minutes between the two instants
    as hours and minutes, each with at least two digits; an entry without
    end is measured up to the clock reading. *)
Theorem duration_is_whole_minutes
    (D : string -> option Z) (start : string) (end_ : option string)
    (now s e : Z) :
  D start = Some s ->
  match end_ with
  | Some t => t <> EmptyString /\ D t = Some e
  | None => e = now
  end ->
  s <= e ->
  let minutes := (e - s) / 60000 in
  calculateDuration D start end_ now
  = (two_digits (minutes / 60) ++ ":" ++ two_digits (minutes mod 60))%string /\
  (minutes / 60) * 60 + minutes mod 60 = minutes /\
  0 <= minutes mod 60 < 60 /\ 0 <= minutes / 60.
Proof.
  intros Hs He Hle minutes.
  assert (0 <= minutes) as Hm by (apply Z.div_pos; lia).
  split; [|split; [|split]].
  - unfold calculateDuration. rewrite Hs.
    destruct end_ as [t|].
    + destruct He as [Hne ->].
      destruct (String.eqb_spec t "") as [->|_]; [contradiction|].
      apply hours_minutes_whole_minutes. lia.
    + subst e. apply hours_minutes_whole_minutes. lia.
  - pose proof (Z.div_mod minutes 60 ltac:(lia)). lia.
  - apply Z.mod_pos_bound. lia.
  - apply Z.div_pos; lia.
Qed.

Lemma duration_is_whole_minutes_witness :
  calculateDuration Sample.Date_getTime Sample.t0_iso None (Sample.t0 + 3723999)
  = "01:02"%string.
Proof.
  exact (proj1 (duration_is_whole_minutes Sample.Date_getTime Sample.t0_iso None
                  (Sample.t0 + 3723999) Sample.t0 (Sample.t0 + 3723999)
                  eq_refl eq_refl ltac:(vm_compute; discriminate))).
Defined.

Lemma append_assoc (a b c : string) :
  ((a ++ b) ++ c = a ++ (b ++ c))%string.
Proof.
  induction a as [|x a IH]; [reflexivity|].
  change (String x ((a ++ b) ++ c) = String x (a ++ (b ++ c)))%string.
  f_equal. exact IH.
Qed.

(** X13.  The tracker and the dashboard agree on a running entry: at the
    same clock reading, the elapsed time shown by the tracker is the
    duration shown by the dashboard followed by the seconds field. *)
Theorem tracker_extends_dashboard_duration
    (D : string -> option Z) (r : Render) (e : TimeEntry) (start now : Z) (w : World) :
  currentTimeEntry r = Some e ->
  D (te_start_time e) = Some start ->
  start <= now ->
  st_elapsedTime (updateElapsedTime D r now w)
  = (calculateDuration D (te_start_time e) None now ++ ":" ++
     two_digits (((now - start) / 1000) mod 60))%string.
Proof.
  intros Hr HD Hle.
  unfold updateElapsedTime, calculateDuration. rewrite Hr, HD. simpl.
  rewrite format_elapsed_spec by exact Hle.
  rewrite hours_minutes_whole_minutes by lia.
  unfold spec_elapsed, hms_of_seconds.
  set (d := now - start).
  assert (0 <= d) by (subst d; lia).
  replace (d / 1000 / 3600) with (d / 60000 / 60)
    by (rewrite !Z.div_div by lia; reflexivity).
  replace ((d / 1000) mod 3600 / 60) with ((d / 60000) mod 60).
  2:{ replace 3600 with (60 * 60) by lia.
      rewrite mod_product_div by lia. rewrite Z.div_div by lia. reflexivity. }
  rewrite append_assoc. simpl. reflexivity.
Qed.

Lemma tracker_extends_dashboard_duration_witness :
  st_elapsedTime
    (updateElapsedTime Sample.Date_getTime (render Sample.recovered)
       (Sample.t0 + 3723999) Sample.recovered)
  = (calculateDuration Sample.Date_getTime Sample.t0_iso None
       (Sample.t0 + 3723999) ++ ":03")%string.
Proof.
  exact (tracker_extends_dashboard_duration Sample.Date_getTime
           (render Sample.recovered) (Sample.session "s0") Sample.t0
           (Sample.t0 + 3723999) Sample.recovered eq_refl eq_refl
           ltac:(vm_compute; discriminate)).
Defined.

(** ** Store actions *)

(** X14.  In the store, a start whose insert is accepted with a fresh id
    followed by a stop whose update is accepted adds exactly one closed row
    and leaves no current entry, whatever entry the store held before; and
    an action whose database call is refused rejects and leaves store and
    table as they were. *)
Theorem store_start_then_stop
    (st : StoreState) (db : list TimeEntry) (u : Profile)
    (id now1 now2 : string) :
  store_state_user st = Some u ->
  Forall (fun e => te_id e <> id) db ->
  let started := startTracking now1 (Some id) st db in
  let stopped := stopTracking now2 true (store_after started) (table_after started) in
  rejected started = false /\ rejected stopped = false /\
  store_currentTimeEntry (store_after stopped) = None /\
  table_after stopped
  = db ++ [{| te_id := id; te_start_time := now1; te_end_time := Some now2;
              te_user_id := profile_id u |}] /\
  startTracking now1 None st db
  = {| rejected := true; store_after := st; table_after := db |} /\
  stopTracking now2 false (store_after started) (table_after started)
  = {| rejected := true; store_after := store_after started;
       table_after := table_after started |}.
Proof.
  intros Hu Hfresh started stopped.
  subst stopped started. unfold startTracking, stopTracking. rewrite Hu. simpl.
  repeat split.
  rewrite map_app, close_entry_other by exact Hfresh.
  simpl. unfold close_entry. simpl. rewrite String.eqb_refl. reflexivity.
Qed.

Lemma store_start_then_stop_witness :
  table_after
    (stopTracking Sample.t1_iso true
       (store_after (startTracking Sample.t0_iso (Some "s1")
                       {| store_state_user := Some Sample.alice;
                          store_currentTimeEntry := Some (Sample.session "s0") |}
                       [Sample.session "s0"]))
       (table_after (startTracking Sample.t0_iso (Some "s1")
                       {| store_state_user := Some Sample.alice;
                          store_currentTimeEntry := Some (Sample.session "s0") |}
                       [Sample.session "s0"])))
  = [Sample.session "s0";
     {| te_id := "s1"; te_start_time := Sample.t0_iso;
        te_end_time := Some Sample.t1_iso; te_user_id := "u1" |}].
Proof.
  refine (proj1 (proj2 (proj2 (proj2 (store_start_then_stop
            {| store_state_user := Some Sample.alice;
               store_currentTimeEntry := Some (Sample.session "s0") |}
            [Sample.session "s0"] Sample.alice "s1" Sample.t0_iso Sample.t1_iso
            eq_refl _))))).
  repeat constructor. discriminate.
Defined.

(** ** Admin panel *)

Lemma find_id_some (l : list AdminUser) (uid : string) (u : AdminUser) :
  List.find (fun x => String.eqb (au_id x) uid) l = Some u ->
  In u l /\ au_id u = uid.
Proof.
  intros H. apply List.find_some in H as [Hin He].
  split; [exact Hin | apply String.eqb_eq, He].
Qed.

Lemma find_id_none (l : list AdminUser) (uid : string) :
  List.find (fun x => String.eqb (au_id x) uid) l = None ->
  ~ In uid (map au_id l).
Proof.
  intros H Hin. apply in_map_iff in Hin as (u & Hid & Hu).
  pose proof (List.find_none _ _ H u Hu) as E. simpl in E.
  rewrite Hid, String.eqb_refl in E. discriminate E.
Qed.

Lemma managers_match_loaded ps es ss s :
  managers_match (fetchUsers (Some ps) (Some es) (Some ss) s).
Proof.
  intros x. simpl. unfold managersData. split.
  - intros Hin. apply in_map_iff in Hin as (u & Hid & Hu).
    apply List.filter_In in Hu as [Hu Hrole]. eauto.
  - intros (u & Hu & Hid & Hrole). apply in_map_iff. exists u.
    split; [exact Hid|]. apply List.filter_In. auto.
Qed.

Lemma managers_match_role_change userId newRole ok s :
  managers_match s ->
  managers_match (handleRoleChange (admin_render s) userId newRole ok s).
Proof.
  intros Hinv. unfold handleRoleChange. destruct ok; [|exact Hinv].
  intros x. simpl.
  destruct (String.eqb_spec x userId) as [->|Hne].
  - (* the user whose role changes *)
    destruct (is_manager_role newRole) eqn:Hnew.
    + destruct (List.find (fun u => String.eqb (au_id u) userId) (adm_users s))
        as [updated|] eqn:Hfu.
      * apply find_id_some in Hfu as [Hin Hid].
        assert (exists u, In u (map (fun user => if String.eqb (au_id user) userId
                                      then with_role newRole user else user)
                                  (adm_users s)) /\
                          au_id u = userId /\ is_manager_role (au_role u) = true)
          as Hrhs.
        { exists (with_role newRole updated). split; [|split; [exact Hid|exact Hnew]].
          apply in_map_iff. exists updated. rewrite Hid, String.eqb_refl. auto. }
        split; [intros _; exact Hrhs|]. intros _.
        destruct (List.find (fun m => String.eqb (au_id m) userId) (adm_managers s))
          as [m|] eqn:Hfm.
        -- apply find_id_some in Hfm as [Hm Hmid].
           apply in_map_iff. exists m. auto.
        -- rewrite map_app. apply in_or_app. right. simpl. auto.
      * pose proof (find_id_none _ _ Hfu) as Hnot.
        split.
        -- intros Hin. apply Hinv in Hin as (u & Hu & Hid & _).
           exfalso. apply Hnot, in_map_iff. eauto.
        -- intros (u & Hu & Hid & _). exfalso.
           apply in_map_iff in Hu as (u0 & Hu0 & Hin0).
           apply Hnot, in_map_iff. exists u0. split; [|exact Hin0].
           destruct (String.eqb_spec (au_id u0) userId); [assumption|].
           subst u. contradiction.
    + split.
      * intros Hin. apply in_map_iff in Hin as (m & Hid & Hm).
        apply List.filter_In in Hm as [_ Hm].
        rewrite Hid, String.eqb_refl in Hm. discriminate Hm.
      * intros (u & Hu & Hid & Hrole). exfalso.
        apply in_map_iff in Hu as (u0 & Hu0 & _).
        destruct (String.eqb_spec (au_id u0) userId) as [E|E].
        -- subst u. simpl in Hrole. congruence.
        -- subst u. contradiction.
  - (* every other user *)
    assert (In x (map au_id (adm_managers s)) <->
            exists u, In u (map (fun user => if String.eqb (au_id user) userId
                                   then with_role newRole user else user)
                               (adm_users s)) /\
                      au_id u = x /\ is_manager_role (au_role u) = true) as Hsame.
    { rewrite (Hinv x). split.
      - intros (u & Hu & Hid & Hrole). exists u. split; [|auto].
        apply in_map_iff. exists u. split; [|exact Hu].
        destruct (String.eqb_spec (au_id u) userId); [congruence|reflexivity].
      - intros (u & Hu & Hid & Hrole).
        apply in_map_iff in Hu as (u0 & Hu0 & Hin0).
        destruct (String.eqb_spec (au_id u0) userId) as [E|E].
        + subst u. simpl in Hid. congruence.
        + subst u. eauto. }
    rewrite <- Hsame. clear Hsame.
    destruct (is_manager_role newRole).
    + destruct (List.find (fun u => String.eqb (au_id u) userId) (adm_users s))
        as [updated|] eqn:Hfu; [|reflexivity].
      destruct (List.find (fun m => String.eqb (au_id m) userId) (adm_managers s));
        [reflexivity|].
      apply find_id_some in Hfu as [_ Hid].
      rewrite map_app, in_app_iff. simpl. split; [|auto].
      intros [H|[H|[]]]; [exact H | congruence].
    + split.
      * intros Hin. apply in_map_iff in Hin as (m & Hid & Hm).
        apply List.filter_In in Hm as [Hm _]. apply in_map_iff. eauto.
      * intros Hin. apply in_map_iff in Hin as (m & Hid & Hm).
        apply in_map_iff. exists m. split; [exact Hid|].
        apply List.filter_In. split; [exact Hm|].
        destruct (String.eqb_spec (au_id m) userId); [congruence|reflexivity].
Qed.

Lemma managers_match_manager_change userId newManagerId ok s :
  managers_match s ->
  managers_match (handleManagerChange (admin_render s) userId newManagerId ok s).
Proof.
  intros Hinv. unfold handleManagerChange. destruct ok; [|exact Hinv].
  intros x. simpl. rewrite (Hinv x). split.
  - intros (u & Hu & Hid & Hrole).
    destruct (String.eqb (au_id u) userId) eqn:E.
    + exists (with_manager (if String.eqb newManagerId "none" then None
                            else Some newManagerId) u).
      split; [|auto]. apply in_map_iff. exists u. rewrite E. auto.
    + exists u. split; [|auto]. apply in_map_iff. exists u. rewrite E. auto.
  - intros (u & Hu & Hid & Hrole).
    apply in_map_iff in Hu as (u0 & Hu0 & Hin0).
    exists u0. destruct (String.eqb (au_id u0) userId); subst u; auto.
Qed.

(** X15.  The manager list offered by the admin panel names exactly the
    users whose role is manager or admin: this holds once the three queries
    of [fetchUsers] have succeeded, and a [handleRoleChange] or
    [handleManagerChange] of the current render, accepted or refused, keeps
    it.  A handler of an earlier render does not: when a manager change
    resumes after a role change made from the same render, the user list
    reverts the role while the manager list keeps the user. *)
Theorem manager_list_tracks_roles
    (ps : list ProfileRow) (es : list EntryRef) (ss : list ShotRef)
    (s : AdminState) (userId newRole newManagerId : string) (ok : bool) :
  managers_match (fetchUsers (Some ps) (Some es) (Some ss) s) /\
  (managers_match s ->
   managers_match (handleRoleChange (admin_render s) userId newRole ok s) /\
   managers_match (handleManagerChange (admin_render s) userId newManagerId ok s)) /\
  (managers_match sample_admin /\ ~ managers_match sample_admin_overlapping).
Proof.
  split; [apply managers_match_loaded|]. split.
  - intros H. split.
    + apply managers_match_role_change, H.
    + apply managers_match_manager_change, H.
  - split; [apply managers_match_loaded|].
    intros H. destruct (H "u1"%string) as [H1 _].
    destruct H1 as (u & Hu & Hid & Hrole).
    + vm_compute. auto.
    + vm_compute in Hu.
      destruct Hu as [<-|[<-|[<-|[]]]]; vm_compute in Hid, Hrole; discriminate.
Qed.

Lemma manager_list_tracks_roles_witness :
  managers_match
    (handleRoleChange (admin_render sample_admin) "u1" "manager" true sample_admin) /\
  map au_id (adm_managers
               (handleRoleChange (admin_render sample_admin) "u1" "manager" true
                  sample_admin))
  = ["u2"; "u3"; "u1"]%string.
Proof.
  split; [|reflexivity].
  refine (proj1 (proj1 (proj2 (manager_list_tracks_roles sample_profiles
                   sample_entries sample_shots sample_admin "u1" "manager" "none"
                   true)) _)).
  exact (proj1 (manager_list_tracks_roles sample_profiles sample_entries
                  sample_shots
                  {| adm_users := []; adm_managers := []; adm_error := None |}
                  "u1" "manager" "none" true)).
Defined.

(** Counting over users with distinct ids. *)
Lemma indicator_sum_le_one (P : string -> bool) (ids : list string) :
  NoDup ids ->
  (forall a b, P a = true -> P b = true -> a = b) ->
  (list_sum (map (fun uid => if P uid then 1 else 0) ids) <= 1)%nat.
Proof.
  intros Hnd Huniq. induction Hnd as [|uid ids Hnot _ IH]; simpl; [lia|].
  destruct (P uid) eqn:E; [|lia].
  assert (list_sum (map (fun x => if P x then 1 else 0) ids) = 0)%nat as ->; [|lia].
  clear IH. induction ids as [|y ids IH]; simpl; [reflexivity|].
  destruct (P y) eqn:Ey.
  - exfalso. apply Hnot. rewrite (Huniq _ _ E Ey). left.
  - apply IH. intros Hin. apply Hnot. right. exact Hin.
Qed.

Lemma owned_counts_le {A : Type} (P : string -> A -> bool) (ids : list string)
    (l : list A) :
  NoDup ids ->
  (forall x a b, P a x = true -> P b x = true -> a = b) ->
  (list_sum (map (fun uid => length (List.filter (P uid) l)) ids) <= length l)%nat.
Proof.
  intros Hnd Huniq. induction l as [|x l IH]; simpl.
  - clear. induction ids; simpl; [lia | assumption].
  - assert (list_sum (map (fun uid => length (if P uid x then x :: List.filter (P uid) l
                                              else List.filter (P uid) l)) ids)
            = list_sum (map (fun uid => if P uid x then 1 else 0) ids)
              + list_sum (map (fun uid => length (List.filter (P uid) l)) ids))%nat
      as ->.
    { clear. induction ids as [|uid ids IH]; simpl; [reflexivity|].
      rewrite IH. destruct (P uid x); simpl; lia. }
    pose proof (indicator_sum_le_one (fun uid => P uid x) ids Hnd
                  (fun a b => Huniq x a b)).
    lia.
Qed.

(** X16.  When the profiles have distinct ids, no time entry and no
    screenshot is counted for two users: over all users the
    [time_entries_count] add up to at most the number of time entries, and
    the [screenshots_count] to at most the number of screenshots. *)
Theorem admin_counts_do_not_overlap
    (profiles : list ProfileRow) (timeEntries : list EntryRef) (shots : list ShotRef) :
  NoDup (map pr_id profiles) ->
  (list_sum (map time_entries_count (processedUsers profiles timeEntries shots))
   <= length timeEntries)%nat /\
  (list_sum (map screenshots_count (processedUsers profiles timeEntries shots))
   <= length shots)%nat.
Proof.
  intros Hnd. unfold processedUsers. rewrite !map_map. simpl. split.
  - pose proof (owned_counts_le
                  (fun uid entry => String.eqb (er_user_id entry) uid)
                  (map pr_id profiles) timeEntries Hnd) as H.
    rewrite map_map in H. apply H.
    intros x a b Ha Hb. apply String.eqb_eq in Ha, Hb. congruence.
  - pose proof (owned_counts_le
                  (fun uid screenshot =>
                     match List.find (fun entry => String.eqb (er_id entry)
                                                     (sr_time_entry_id screenshot))
                             timeEntries with
                     | Some timeEntry => String.eqb (er_user_id timeEntry) uid
                     | None => false
                     end)
                  (map pr_id profiles) shots Hnd) as H.
    rewrite map_map in H. apply H.
    intros x a b Ha Hb.
    destruct (List.find _ timeEntries); [|discriminate Ha].
    apply String.eqb_eq in Ha, Hb. congruence.
Qed.

Lemma admin_counts_do_not_overlap_witness :
  (list_sum (map time_entries_count
               (processedUsers sample_profiles sample_entries sample_shots))
   <= 3)%nat /\
  map time_entries_count (processedUsers sample_profiles sample_entries sample_shots)
  = [2; 0; 0]%nat.
Proof.
  split; [|reflexivity].
  refine (proj1 (admin_counts_do_not_overlap sample_profiles sample_entries
                   sample_shots _)).
  refine (bool_decide_unpack (NoDup (map pr_id sample_profiles)) _).
  vm_compute. exact I.
Defined.

(** ** What decides whether a start arms the scheduler *)

(** X17.  For a click on Start (a render without current entry) whose
    insert is accepted: the answers of the probe only reach the two state
    cells, and the capture interval is armed, with period 300000 ms and its
    handle in [intervalRef], exactly when a permission flag of the
    handler's own render is set; otherwise the timers are left as they
    were. *)
Theorem start_arms_by_render_flags (r : Render) (senv : StartEnv) (w : World) :
  currentTimeEntry r = None ->
  snd (start_insert r senv w) = true ->
  let w' := handleStartTracking r senv w in
  st_hasScreenPermission w' = probe_screen senv /\
  st_hasWebcamPermission w' = probe_webcam senv /\
  if hasScreenPermission r || hasWebcamPermission r then
    armed_for r (next_timer w) w' /\ intervalRef w' = Some (next_timer w)
  else handles w' = handles w.
Proof.
  intros Hr Hins w'. subst w'. rewrite handleStartTracking_phases, Hins.
  pose proof (handles_start_insert r senv w) as Hh.
  set (w0 := fst (start_insert r senv w)) in *. clearbody w0.
  pose proof (start_arm_follows_render r senv w0) as Harm.
  unfold handles in Hh. injection Hh as Ht Hi Hn.
  assert (st_hasScreenPermission (start_arm r senv w0) = probe_screen senv /\
          st_hasWebcamPermission (start_arm r senv w0) = probe_webcam senv)
    as [Hs Hw].
  { unfold start_arm.
    destruct (hasScreenPermission r || hasWebcamPermission r); [|tauto].
    simpl. unfold captureScreenshots. rewrite Hr. tauto. }
  split; [exact Hs|]. split; [exact Hw|].
  destruct (hasScreenPermission r || hasWebcamPermission r).
  - rewrite <- Hn. exact Harm.
  - rewrite Harm. unfold handles. simpl. congruence.
Qed.

Lemma start_arms_by_render_flags_witness :
  st_hasScreenPermission Sample.second_start_refused = false /\
  armed_for (render Sample.after_first_session) 2 Sample.second_start_refused.
Proof.
  pose proof (start_arms_by_render_flags (render Sample.after_first_session)
                (Sample.start_env (Some "s2") false false)
                Sample.after_first_session eq_refl eq_refl) as (H1 & _ & H3).
  split; [exact H1 | exact (proj1 H3)].
Defined.
